(** * ao-dashboard: the tender pipeline of [app.py]

    A shallow embedding of [categorize_lot], [prepare_timeline_data] and of
    the filtering and statistics code of [main], followed by the properties
    of the specification that were checked against it.

    Python values are the ones [json.load] produces.  A [str] is a sequence
    of Unicode code points, so that [len], slicing and [in] count what
    Python counts.  The functions of the interpreter and of pandas that the
    program calls but does not define ([str.lower], [str], [pd.to_datetime])
    are the fields of the class [Runtime]; the current instant
    [pd.Timestamp.now()] is the argument [today]. *)

From Stdlib Require Import ZArith NArith List String Ascii Bool Lia Sorted.
From stdpp Require Import base list gmap sets.
Import ListNotations.

#[local] Set Warnings "-register-all".
Local Open Scope Z_scope.

(* ===================================================================== *)
(** ** Python strings *)
(* ===================================================================== *)

Module PyStr.

(** A code point, and a Python [str]. *)
Abbreviation cp := N (only parsing).
Abbreviation pystr := (list N) (only parsing).

Definition bytes_of (s : string) : list N :=
  List.map (fun b => N.of_nat (nat_of_ascii b)) (list_ascii_of_string s).

(** Decoding of the UTF-8 bytes of a literal of this file, the encoding of
    [app.py] itself. *)
Fixpoint utf8_decode (bs : list N) : pystr :=
  match bs with
  | [] => []
  | b0 :: r0 =>
    if (b0 <? 128)%N then b0 :: utf8_decode r0
    else match r0 with
    | [] => []
    | b1 :: r1 =>
      if (b0 <? 224)%N then ((b0 - 192) * 64 + (b1 - 128))%N :: utf8_decode r1
      else match r1 with
      | [] => []
      | b2 :: r2 =>
        if (b0 <? 240)%N
        then ((b0 - 224) * 4096 + (b1 - 128) * 64 + (b2 - 128))%N :: utf8_decode r2
        else match r2 with
        | [] => []
        | b3 :: r3 =>
          ((b0 - 240) * 262144 + (b1 - 128) * 4096 + (b2 - 128) * 64 + (b3 - 128))%N
            :: utf8_decode r3
        end
      end
    end
  end.

(** [u "..."] is the Python literal ['...']. *)
Definition u (s : string) : pystr := utf8_decode (bytes_of s).

Fixpoint startswith (s p : pystr) : bool :=
  match p, s with
  | [], _ => true
  | _ :: _, [] => false
  | a :: p', b :: s' => (a =? b)%N && startswith s' p'
  end.

(** [p in s] on two strings. *)
Fixpoint contains (s p : pystr) : bool :=
  startswith s p ||
  match s with
  | [] => false
  | _ :: s' => contains s' p
  end.

(** The declarative reading of [p in s]. *)
Definition substring (p s : pystr) : Prop :=
  exists a c : pystr, s = a ++ p ++ c.

(** [sep.join(l)] on a list of strings. *)
Fixpoint join (sep : pystr) (l : list pystr) : pystr :=
  match l with
  | [] => []
  | [x] => x
  | x :: r => x ++ sep ++ join sep r
  end.

(** [s.split(sep)] for a one-character separator: the pieces between the
    occurrences of [sep], always at least one piece. *)
Fixpoint split (sep : cp) (s : pystr) : list pystr :=
  match s with
  | [] => [[]]
  | c :: r =>
    if (c =? sep)%N then [] :: split sep r
    else match split sep r with
         | [] => [[c]]
         | w :: ws => (c :: w) :: ws
         end
  end.

(** The code points for which [str.isspace] holds. *)
Definition isspace (c : cp) : bool :=
  ((9 <=? c) && (c <=? 13) || (28 <=? c) && (c <=? 32)
   || (c =? 133) || (c =? 160) || (c =? 5760)
   || (8192 <=? c) && (c <=? 8202)
   || (c =? 8232) || (c =? 8233) || (c =? 8239) || (c =? 8287)
   || (c =? 12288))%N.

Fixpoint lstrip (s : pystr) : pystr :=
  match s with
  | [] => []
  | c :: r => if isspace c then lstrip r else s
  end.

(** [s.strip()]. *)
Definition strip (s : pystr) : pystr := rev (lstrip (rev (lstrip s))).

(** [s[:n]]. *)
Definition slice_to (n : nat) (s : pystr) : pystr := firstn n s.

(** Lower-casing of one ASCII code point. *)
Definition ascii_lower (c : cp) : cp :=
  if ((65 <=? c) && (c <=? 90))%N then (c + 32)%N else c.

Definition is_ascii (c : cp) : bool := (c <? 128)%N.

(** Decimal digits of a natural number, for the index in an error text. *)
Fixpoint dec_digits (fuel : nat) (n : N) (acc : pystr) : pystr :=
  match fuel with
  | O => acc
  | S f =>
    let acc' := (48 + n mod 10)%N :: acc in
    if (n <? 10)%N then acc' else dec_digits f (n / 10)%N acc'
  end.

Definition dec_of_nat (n : nat) : pystr := dec_digits (S n) (N.of_nat n) [].

End PyStr.
Import PyStr.

(* ===================================================================== *)
(** ** Python values, exceptions, the runtime *)
(* ===================================================================== *)

(** The values [json.load] builds.  A float is carried by its [repr]: the
    program never computes with one.  A [dict] is the list of its items in
    insertion order, its keys pairwise distinct. *)
Inductive pyval : Type :=
  | PNone
  | PBool (b : bool)
  | PInt (z : Z)
  | PFloat (repr : pystr)
  | PStr (s : pystr)
  | PList (l : list pyval)
  | PDict (items : list (pystr * pyval)).

(** The exception classes the program meets, each with its subclasses; the
    [except] clause of [prepare_timeline_data] names the first three. *)
Inductive exn_class := TypeError | ValueError | KeyError | AttributeError.

Record exn := Exn { exn_cls : exn_class; exn_str : pystr }.

(** Result of an expression that may raise. *)
Inductive result (A : Type) : Type :=
  | Ok (a : A)
  | Raise (e : exn).
Arguments Ok {A} a.
Arguments Raise {A} e.

Definition bind {A B} (r : result A) (k : A -> result B) : result B :=
  match r with
  | Ok a => k a
  | Raise e => Raise e
  end.

Notation "'let*' x ':=' r 'in' k" := (bind r (fun x => k))
  (at level 10, x name, r at level 100, k at level 200).

(** What the program takes from the interpreter and from pandas.
    [to_datetime v] is [pd.to_datetime(v)] on a scalar: a [Timestamp]
    without time zone, as an unbounded count of nanoseconds since the
    epoch, or a missing value ([None], [NaT]) on which [pd.isna] holds, or
    an exception. *)
Class Runtime := {
  str_lower : pystr -> pystr;
  py_str : pyval -> pystr;
  to_datetime : pyval -> result (option Z)
}.

(** The facts about the interpreter the proofs rely on: [str] is the
    identity on a [str], and [str.lower] lower-cases an ASCII segment in
    place, whatever surrounds it. *)
Class RuntimeLaws (R : Runtime) := {
  py_str_str : forall s, py_str (PStr s) = s;
  str_lower_ascii : forall a b c : pystr,
    forallb is_ascii b = true ->
    exists a' c', str_lower (a ++ b ++ c) = a' ++ List.map ascii_lower b ++ c'
}.

Definition type_name (v : pyval) : pystr :=
  match v with
  | PNone => u "NoneType"
  | PBool _ => u "bool"
  | PInt _ => u "int"
  | PFloat _ => u "float"
  | PStr _ => u "str"
  | PList _ => u "list"
  | PDict _ => u "dict"
  end.

Definition quoted (s : pystr) : pystr := u "'" ++ s ++ u "'".

Fixpoint assoc (k : pystr) (items : list (pystr * pyval)) : option pyval :=
  match items with
  | [] => None
  | (k', v) :: r => if decide (k = k') then Some v else assoc k r
  end.

(** [item[k]] for a string key [k]. *)
Definition getitem (item : pyval) (k : pystr) : result pyval :=
  match item with
  | PDict items =>
    match assoc k items with
    | Some v => Ok v
    | None => Raise (Exn KeyError (quoted k))
    end
  | PList _ => Raise (Exn TypeError (u "list indices must be integers or slices, not str"))
  | PStr _ => Raise (Exn TypeError (u "string indices must be integers, not 'str'"))
  | v => Raise (Exn TypeError (quoted (type_name v) ++ u " object is not subscriptable"))
  end.

(** [item.get(k, default)]. *)
Definition dict_get (item : pyval) (k : pystr) (default : pyval) : result pyval :=
  match item with
  | PDict items =>
    match assoc k items with
    | Some v => Ok v
    | None => Ok default
    end
  | v => Raise (Exn AttributeError
                  (quoted (type_name v) ++ u " object has no attribute 'get'"))
  end.

(** The elements a [for] loop draws from a value. *)
Definition py_iter (v : pyval) : result (list pyval) :=
  match v with
  | PList l => Ok l
  | PStr s => Ok (List.map (fun c => PStr [c]) s)
  | PDict items => Ok (List.map (fun kv => PStr (fst kv)) items)
  | v => Raise (Exn TypeError (quoted (type_name v) ++ u " object is not iterable"))
  end.

(** [sep.join(l)] on a list of values: every element must be a [str]. *)
Fixpoint str_items (i : nat) (l : list pyval) : result (list pystr) :=
  match l with
  | [] => Ok []
  | PStr s :: r => let* ss := str_items (S i) r in Ok (s :: ss)
  | v :: _ =>
    Raise (Exn TypeError
             (u "sequence item " ++ dec_of_nat i ++ u ": expected str instance, "
              ++ type_name v ++ u " found"))
  end.

Definition str_join (sep : pystr) (l : list pyval) : result pystr :=
  let* ss := str_items 0 l in Ok (join sep ss).

(* ===================================================================== *)
(** ** [categorize_lot] *)
(* ===================================================================== *)

(** The dictionary [category_keywords], in its insertion order. *)
Definition category_keywords : list (pystr * list pystr) :=
  [ (u "Viande", [u "viande"; u "bœuf"; u "veau"; u "porc"; u "agneau"; u "mouton"]);
    (u "Volaille", [u "volaille"; u "poulet"; u "dinde"]);
    (u "Charcuterie", [u "charcuterie"]);
    (u "Produits Laitiers", [u "lait"; u "produits laitiers"; u "ovoproduits"]);
    (u "Fruits et Légumes", [u "fruits"; u "légumes"; u "aromates"]);
    (u "Surgelés", [u "surgelé"]);
    (u "BIO", [u "bio"]);
    (u "Épicerie", [u "épicerie"; u "féculents"; u "pâtes"; u "riz"; u "condiments";
                    u "épices"]);
    (u "Poisson", [u "poisson"]);
    (u "Boissons", [u "boisson"]);
    (u "Desserts", [u "dessert"; u "pâtisserie"; u "compote"]) ].

(** The keys of [category_keywords]. *)
Definition category_labels : list pystr := List.map fst category_keywords.

(** [w] is [kw] up to the case of its ASCII letters. *)
Definition same_up_to_case (w kw : pystr) : Prop := List.map ascii_lower w = kw.

(** [s] holds [kw] in some casing. *)
Definition contains_nocase (kw s : pystr) : Prop :=
  exists w, same_up_to_case w kw /\ substring w s.

(** [any(keyword in lot_name for keyword in keywords)]. *)
Definition any_keyword (lot_name : pystr) (keywords : list pystr) : bool :=
  existsb (fun keyword => contains lot_name keyword) keywords.

(** The loop over [category_keywords.items()], appending to [categories]. *)
Fixpoint categorize_loop (lot_name : pystr) (items : list (pystr * list pystr))
    (categories : list pystr) : list pystr :=
  match items with
  | [] => categories
  | (category, keywords) :: rest =>
    if any_keyword lot_name keywords
    then categorize_loop lot_name rest (categories ++ [category])
    else categorize_loop lot_name rest categories
  end.

Section Categorizer.
Context `{R : Runtime}.

Definition categorize_lot (lot_name : pystr) : list pystr :=
  let lot_name := str_lower lot_name in
  categorize_loop lot_name category_keywords [].

(** [categorize_lot] applied to an arbitrary value: [lot_name.lower()] exists
    only on a [str]. *)
Definition categorize_lot_val (lot : pyval) : result (list pystr) :=
  match lot with
  | PStr s => Ok (categorize_lot s)
  | v => Raise (Exn AttributeError
                  (quoted (type_name v) ++ u " object has no attribute 'lower'"))
  end.

End Categorizer.

(* ===================================================================== *)
(** ** [prepare_timeline_data] *)
(* ===================================================================== *)

(** One entry of [timeline_data], a row of the data frame. *)
Record Row := {
  Task : pystr;
  Start : Z;
  Finish : Z;
  Resource : pyval;
  Department : pystr;
  Departments : list pyval;
  Titulaire : pystr;
  Days_Left : Z;
  Status : pystr;
  Lots : pyval;
  Categories : list pystr;
  URL : pyval
}.

(** Nanoseconds in a day: [Timedelta.days] is the floor of the difference
    divided by it. *)
Definition ns_per_day : Z := 86400000000000.

Definition timedelta_days (end_date today : Z) : Z := (end_date - today) / ns_per_day.

Definition dquote : pystr := [34%N].

(** The empty string. *)
Definition empty_str : pystr := [].

(** [item['objet'][:80] + '...' if len(item['objet']) > 80 else item['objet']],
    then added to a [str]: only a [str] goes through. *)
Definition objet_text (v : pyval) : result pystr :=
  match v with
  | PStr s =>
    Ok (if (80 <? length s)%nat then slice_to 80 s ++ u "..." else s)
  | PList l =>
    Raise (Exn TypeError
             (if (80 <? length l)%nat
              then u "can only concatenate list (not " ++ dquote ++ u "str"
                   ++ dquote ++ u ") to list"
              else u "can only concatenate str (not " ++ dquote ++ u "list"
                   ++ dquote ++ u ") to str"))
  | PDict items =>
    Raise (Exn TypeError
             (if (80 <? length items)%nat
              then u "unhashable type: 'slice'"
              else u "can only concatenate str (not " ++ dquote ++ u "dict"
                   ++ dquote ++ u ") to str"))
  | v => Raise (Exn TypeError
                  (u "object of type " ++ quoted (type_name v) ++ u " has no len()"))
  end.

Section Normalizer.
Context `{R : Runtime}.

(** [for lot in lots: all_categories.update(categorize_lot(lot))]. *)
Fixpoint update_categories (lots : list pyval) (all_categories : gset pystr)
    : result (gset pystr) :=
  match lots with
  | [] => Ok all_categories
  | lot :: rest =>
    let* cats := categorize_lot_val lot in
    update_categories rest (all_categories ∪ list_to_set cats)
  end.

(** [v if isinstance(v, list) else [str(v)]], the list the program makes of
    [code_departement]. *)
Definition one_or_many (v : pyval) : list pyval :=
  match v with
  | PList l => l
  | v => [PStr (py_str v)]
  end.

(** The body of the [try] for one [item]; [Ok None] is the [continue] taken
    when a date is missing. *)
Definition try_item (today : Z) (item : pyval) : result (option Row) :=
  let* date_debut := getitem item (u "date_debut") in
  let* start_date := to_datetime date_debut in
  let* date_fin := getitem item (u "date_fin") in
  let* end_date := to_datetime date_fin in
  match start_date, end_date with
  | Some start_date, Some end_date =>
    let days_left := timedelta_days end_date today in
    let status := if days_left <? 0 then u "Terminé" else u "En cours" in
    let* titulaire := getitem item (u "titulaire") in
    let* titulaires :=
      match titulaire with
      | PList l => str_join (u ", ") l
      | v => Ok (py_str v)
      end in
    let* code_departement := getitem item (u "code_departement") in
    let departments := one_or_many code_departement in
    let* lots := dict_get item (u "LOTS") (PList []) in
    let* lot_seq := py_iter lots in
    let* all_categories := update_categories lot_seq ∅ in
    let* objet := getitem item (u "objet") in
    let* text := objet_text objet in
    let* nomacheteur := getitem item (u "nomacheteur") in
    let* department := str_join (u ", ") departments in
    let* url_avis := dict_get item (u "url_avis") (PStr empty_str) in
    Ok (Some {| Task := u "[" ++ status ++ u "] " ++ text;
                Start := start_date;
                Finish := end_date;
                Resource := nomacheteur;
                Department := department;
                Departments := departments;
                Titulaire := titulaires;
                Days_Left := days_left;
                Status := status;
                Lots := lots;
                Categories := elements all_categories;
                URL := url_avis |})
  | _, _ => Ok None
  end.

(** What one turn of the loop does. *)
Inductive outcome :=
  | Appended (row : Row)
  | Skipped
  | Warned (message : pystr)
  | Crashed (e : exn).

Definition caught (c : exn_class) : bool :=
  match c with
  | TypeError | ValueError | KeyError => true
  | AttributeError => false
  end.

(** The f-string given to [st.warning] for [idweb] and the exception [e]. *)
Definition warning_text (idweb : pyval) (e : exn) : pystr :=
  u "Erreur avec l'entrée: " ++ py_str idweb ++ u " - " ++ exn_str e.

(** The [try] with its [except (TypeError, ValueError, KeyError)]. *)
Definition process_item (today : Z) (item : pyval) : outcome :=
  match try_item today item with
  | Ok (Some row) => Appended row
  | Ok None => Skipped
  | Raise e =>
    if caught (exn_cls e) then
      match dict_get item (u "idweb") (PStr (u "ID inconnu")) with
      | Ok idweb =>
        Warned (warning_text idweb e)
      | Raise e' => Crashed e'
      end
    else Crashed e
  end.

(** The state of the run: the rows appended and the warnings shown so far;
    an uncaught exception ends it. *)
Inductive run :=
  | Returned (timeline_data : list Row) (warnings : list pystr)
  | Uncaught (e : exn) (timeline_data : list Row) (warnings : list pystr).

Fixpoint timeline_loop (today : Z) (data : list pyval)
    (timeline_data : list Row) (warnings : list pystr) : run :=
  match data with
  | [] => Returned timeline_data warnings
  | item :: rest =>
    match process_item today item with
    | Appended row => timeline_loop today rest (timeline_data ++ [row]) warnings
    | Skipped => timeline_loop today rest timeline_data warnings
    | Warned w => timeline_loop today rest timeline_data (warnings ++ [w])
    | Crashed e => Uncaught e timeline_data warnings
    end
  end.

Definition prepare_timeline_data (today : Z) (data : list pyval) : run :=
  timeline_loop today data [] [].

(** What the loop keeps of one item: the row it appends, the warning it
    shows, whether it ends the run. *)
Definition normalized (today : Z) (item : pyval) : option Row :=
  match try_item today item with
  | Ok (Some row) => Some row
  | _ => None
  end.

Definition warning_of (today : Z) (item : pyval) : option pystr :=
  match process_item today item with
  | Warned w => Some w
  | _ => None
  end.

Definition crashes (today : Z) (item : pyval) : bool :=
  match process_item today item with
  | Crashed _ => true
  | _ => false
  end.

(** Every step the [try] went through when it appended [row]. *)
Record appended (today : Z) (item : pyval) (row : Row) : Prop := {
  ap_date_debut : exists v, getitem item (u "date_debut") = Ok v /\
                            to_datetime v = Ok (Some (Start row));
  ap_date_fin : exists v, getitem item (u "date_fin") = Ok v /\
                          to_datetime v = Ok (Some (Finish row));
  ap_days_left : Days_Left row = timedelta_days (Finish row) today;
  ap_status : Status row = if Days_Left row <? 0 then u "Terminé" else u "En cours";
  ap_titulaire : exists v, getitem item (u "titulaire") = Ok v /\
                   match v with
                   | PList l => str_join (u ", ") l
                   | v => Ok (py_str v)
                   end = Ok (Titulaire row);
  ap_departments : exists v, getitem item (u "code_departement") = Ok v /\
                     Departments row = one_or_many v /\
                     str_join (u ", ") (Departments row) = Ok (Department row);
  ap_lots : dict_get item (u "LOTS") (PList []) = Ok (Lots row);
  ap_categories : exists lot_seq all_categories,
                    py_iter (Lots row) = Ok lot_seq /\
                    update_categories lot_seq ∅ = Ok all_categories /\
                    Categories row = elements all_categories;
  ap_task : exists v text, getitem item (u "objet") = Ok v /\
              objet_text v = Ok text /\
              Task row = u "[" ++ Status row ++ u "] " ++ text;
  ap_resource : getitem item (u "nomacheteur") = Ok (Resource row);
  ap_url : dict_get item (u "url_avis") (PStr empty_str) = Ok (URL row)
}.

(** Midnight of the day of [today]. *)
Definition midnight_of (today : Z) : Z := today - today mod ns_per_day.


(** The specification's wrapping of a scalar: a list as it is, any other
    value as a one-element list. *)
Definition scalar_or_list (v : pyval) : list pyval :=
  match v with
  | PList l => l
  | v => [v]
  end.

(** The specification's reading of the awardees: some field [awardees] of
    the row holds the list form of [titulaire]. *)
Definition retains_awardee_list (today : Z) (awardees : Row -> list pyval) : Prop :=
  forall item row v,
    normalized today item = Some row -> getitem item (u "titulaire") = Ok v ->
    awardees row = scalar_or_list v.

(** The specification's reading of the day count: it is counted between
    calendar days, whatever the time of day of [today]. *)
Definition counts_calendar_days (today : Z) : Prop :=
  forall item row, normalized today item = Some row ->
    (Finish row = midnight_of today + ns_per_day -> Days_Left row = 1) /\
    (Finish row = midnight_of today - ns_per_day -> Days_Left row = -1).

End Normalizer.

(* ===================================================================== *)
(** ** The filters and the statistics of [main] *)
(* ===================================================================== *)

(** [==] on two strings. *)
Definition str_eqb (a b : pystr) : bool := bool_decide (a = b).

(** [x in l] for a string [x] and a list of strings [l]. *)
Definition str_in (x : pystr) (l : list pystr) : bool := existsb (str_eqb x) l.

(** [==] on the hashable values of a column.  It is exact on strings, on
    [None], on booleans and on integers.  A float is known by its [repr]
    only, so that a column mixing integers and floats, which pandas recasts
    as a whole, is outside what follows: the properties of the filters are
    stated for selections of strings.  A row holding a list or a dictionary
    as buyer never reaches the filters: [set(df['Resource'])] fails on it
    before. *)
Definition py_eqb (a b : pyval) : bool :=
  match a, b with
  | PNone, PNone => true
  | PBool x, PBool y => Bool.eqb x y
  | PInt x, PInt y => x =? y
  | PBool x, PInt y | PInt y, PBool x => y =? (if x then 1 else 0)
  | PFloat x, PFloat y => str_eqb x y
  | PStr x, PStr y => str_eqb x y
  | _, _ => false
  end.

(** [Series.isin(values)] at one cell, and [cell in values]. *)
Definition isin (cell : pyval) (values : list pyval) : bool :=
  existsb (py_eqb cell) values.

(** The six widgets above the chart. *)
Record Selection := {
  selected_acheteurs : list pyval;
  selected_titulaires : list pystr;
  selected_departments : list pyval;
  expiration_filter : pystr;
  status_filter : list pystr;
  selected_categories : list pystr
}.

(** The options of the select box. *)
Definition expiration_options : list pystr :=
  [ u "Tous les AO";
    u "Se termine dans 3 mois";
    u "Se termine dans 6 mois";
    u "Se termine dans 1 an";
    u "Se termine dans 1 an et demi";
    u "Se termine dans 2 ans" ].

(** The bound the [if]/[elif] chain on [expiration_filter] puts on
    [Days_Left]; [None] when no branch filters. *)
Definition expiration_bound (expiration_filter : pystr) : option Z :=
  if negb (str_eqb expiration_filter (u "Tous les AO")) then
    if contains expiration_filter (u "3 mois") then Some 90
    else if contains expiration_filter (u "6 mois") then Some 180
    else if contains expiration_filter (u "1 an") then Some 365
    else if contains expiration_filter (u "1 an et demi") then Some 547
    else if contains expiration_filter (u "2 ans") then Some 730
    else None
  else None.

(** [if selection: frame = frame[mask]], a data frame being the list of its
    rows: an empty selection leaves the frame as it is. *)
Definition restrict {A} (selection : list A) (mask : Row -> bool)
    (frame : list Row) : list Row :=
  match selection with
  | [] => frame
  | _ :: _ => List.filter mask frame
  end.

Definition titulaire_mask (selected : list pystr) (row : Row) : bool :=
  existsb (fun t => str_in (strip t) selected) (split 44%N (Titulaire row)).

Definition departments_mask (selected : list pyval) (row : Row) : bool :=
  existsb (fun dept => isin dept selected) (Departments row).

Definition categories_mask (selected : list pystr) (row : Row) : bool :=
  existsb (fun cat => str_in cat selected) (Categories row).

Definition expiration_step (expiration_filter : pystr) (frame : list Row) : list Row :=
  match expiration_bound expiration_filter with
  | Some bound => List.filter (fun row => Days_Left row <=? bound) frame
  | None => frame
  end.

(** The rows that pass the filters one after the other, in the order of
    «Application des filtres».  The program itself, working on a data frame
    of pandas, can raise on the way: that is [apply_filters] below, which
    yields these rows whenever it returns. *)
Definition filtered_df (df : list Row) (sel : Selection) : list Row :=
  let filtered_df := df in
  let filtered_df :=
    restrict (selected_acheteurs sel)
      (fun row => isin (Resource row) (selected_acheteurs sel)) filtered_df in
  let filtered_df :=
    restrict (selected_titulaires sel)
      (titulaire_mask (selected_titulaires sel)) filtered_df in
  let filtered_df :=
    restrict (selected_departments sel)
      (departments_mask (selected_departments sel)) filtered_df in
  let filtered_df := expiration_step (expiration_filter sel) filtered_df in
  let filtered_df :=
    restrict (status_filter sel)
      (fun row => str_in (Status row) (status_filter sel)) filtered_df in
  let filtered_df :=
    restrict (selected_categories sel)
      (categories_mask (selected_categories sel)) filtered_df in
  filtered_df.

(** A data frame in the course of the filters: its rows, and whether it
    still has its columns.  [pd.DataFrame([])] has none. *)
Record frame := {
  frame_rows : list Row;
  has_columns : bool
}.

Definition new_frame (df : list Row) : frame :=
  {| frame_rows := df;
     has_columns := match df with
                    | [] => false
                    | _ :: _ => true
                    end |}.

(** [frame[col]]: a frame that has lost its columns raises [KeyError]. *)
Definition column (col : pystr) (fr : frame) : result (list Row) :=
  if has_columns fr then Ok (frame_rows fr) else Raise (Exn KeyError (quoted col)).

(** [frame[frame[col].isin(values)]] and [frame[frame[col] <= bound]]: a
    boolean mask keeps the rows where it holds. *)
Definition keep_where (col : pystr) (mask : Row -> bool) (fr : frame) : result frame :=
  let* rows := column col fr in
  Ok {| frame_rows := List.filter mask rows; has_columns := true |}.

(** [frame[frame[col].apply(f)]].  On a frame without rows [apply] gives an
    empty Series of dtype object, which the indexing takes for an empty list
    of column labels: the frame comes out without its columns. *)
Definition keep_where_applied (col : pystr) (mask : Row -> bool) (fr : frame)
    : result frame :=
  let* rows := column col fr in
  match rows with
  | [] => Ok {| frame_rows := []; has_columns := false |}
  | _ :: _ => Ok {| frame_rows := List.filter mask rows; has_columns := true |}
  end.

(** [if selection: ...]. *)
Definition when_selected {A} (selection : list A) (step : frame -> result frame)
    (fr : frame) : result frame :=
  match selection with
  | [] => Ok fr
  | _ :: _ => step fr
  end.

(** «Application des filtres» on the data frame [df], as pandas runs it. *)
Definition apply_filters (df : list Row) (sel : Selection) : result frame :=
  let filtered_df := new_frame df in
  let* filtered_df :=
    when_selected (selected_acheteurs sel)
      (keep_where (u "Resource")
         (fun row => isin (Resource row) (selected_acheteurs sel))) filtered_df in
  let* filtered_df :=
    when_selected (selected_titulaires sel)
      (keep_where_applied (u "Titulaire") (titulaire_mask (selected_titulaires sel)))
      filtered_df in
  let* filtered_df :=
    when_selected (selected_departments sel)
      (keep_where_applied (u "Departments")
         (departments_mask (selected_departments sel))) filtered_df in
  let* filtered_df :=
    match expiration_bound (expiration_filter sel) with
    | Some bound =>
      keep_where (u "Days_Left") (fun row => Days_Left row <=? bound) filtered_df
    | None => Ok filtered_df
    end in
  let* filtered_df :=
    when_selected (status_filter sel)
      (keep_where (u "Status") (fun row => str_in (Status row) (status_filter sel)))
      filtered_df in
  let* filtered_df :=
    when_selected (selected_categories sel)
      (keep_where_applied (u "Categories")
         (categories_mask (selected_categories sel))) filtered_df in
  Ok filtered_df.

(** [fr] holds the rows [l], and has lost its columns only if it has no
    row. *)
Definition tracks (l : list Row) (fr : frame) : Prop :=
  frame_rows fr = l /\ (has_columns fr = false -> l = []).

(** A selection whose buyers and departments are strings, as the widgets
    offer them for a table of strings. *)
Definition string_selection (buyers awardees departments : list pystr)
    (horizon : pystr) (statuses categories : list pystr) : Selection :=
  {| selected_acheteurs := List.map PStr buyers;
     selected_titulaires := awardees;
     selected_departments := List.map PStr departments;
     expiration_filter := horizon;
     status_filter := statuses;
     selected_categories := categories |}.

(** The selection a fresh page starts from: only the status widget has a
    default. *)
Definition default_selection : Selection :=
  {| selected_acheteurs := [];
     selected_titulaires := [];
     selected_departments := [];
     expiration_filter := u "Tous les AO";
     status_filter := [u "En cours"];
     selected_categories := [] |}.

(** One dimension of the selection as a test on a row: an empty selection
    lets every row through. *)
Definition dimension {A} (selection : list A) (mask : Row -> bool) (row : Row) : bool :=
  match selection with
  | [] => true
  | _ :: _ => mask row
  end.

Definition expiration_mask (expiration_filter : pystr) (row : Row) : bool :=
  match expiration_bound expiration_filter with
  | Some bound => Days_Left row <=? bound
  | None => true
  end.

(** The conjunction of the six dimensions. *)
Definition passes (sel : Selection) (row : Row) : bool :=
  dimension (selected_acheteurs sel)
    (fun row => isin (Resource row) (selected_acheteurs sel)) row
  && dimension (selected_titulaires sel) (titulaire_mask (selected_titulaires sel)) row
  && dimension (selected_departments sel)
       (departments_mask (selected_departments sel)) row
  && expiration_mask (expiration_filter sel) row
  && dimension (status_filter sel)
       (fun row => str_in (Status row) (status_filter sel)) row
  && dimension (selected_categories sel)
       (categories_mask (selected_categories sel)) row.

(** Active tenders ending within three months, nothing else selected. *)
Definition active_within_3_months : Selection :=
  {| selected_acheteurs := [];
     selected_titulaires := [];
     selected_departments := [];
     expiration_filter := u "Se termine dans 3 mois";
     status_filter := [u "En cours"];
     selected_categories := [] |}.

(** The four metrics. *)
Definition total_aos (filtered_df : list Row) : nat := length filtered_df.

Definition active_aos (filtered_df : list Row) : nat :=
  length (List.filter (fun row => str_eqb (Status row) (u "En cours")) filtered_df).

Definition expiring_soon (filtered_df : list Row) : nat :=
  length (List.filter (fun row => (Days_Left row <=? 90) && (Days_Left row >=? 0))
            filtered_df).

Definition finished_aos (filtered_df : list Row) : nat :=
  length (List.filter (fun row => str_eqb (Status row) (u "Terminé")) filtered_df).

(* ===================================================================== *)
(** ** The rest of [main]: option lists, chart, page *)
(* ===================================================================== *)

(** [a < b] on two strings: code point by code point, a proper prefix
    first. *)
Fixpoint str_ltb (a b : pystr) : bool :=
  match a, b with
  | _, [] => false
  | [], _ :: _ => true
  | x :: a', y :: b' => (x <? y)%N || ((x =? y)%N && str_ltb a' b')
  end.

Definition str_lt (a b : pystr) : Prop := str_ltb a b = true.

Fixpoint insort (x : pystr) (l : list pystr) : list pystr :=
  match l with
  | [] => [x]
  | y :: r => if str_ltb y x then y :: insort x r else x :: l
  end.

(** [sorted(l)] on strings.  The order is total, so that the result does not
    depend on the sorting method. *)
Definition sorted (l : list pystr) : list pystr := fold_right insort [] l.

(** [sorted(list(set(l)))]. *)
Definition sorted_set (l : list pystr) : list pystr :=
  sorted (elements (list_to_set l : gset pystr)).

(** The options of the awardee widget:
    [t.strip() for titulaire in df['Titulaire'].str.split(',') for t in titulaire]. *)
Definition titulaires (df : list Row) : list pystr :=
  sorted_set (flat_map (fun row => List.map strip (split 44%N (Titulaire row))) df).

(** The options of the category widget. *)
Definition all_categories (df : list Row) : list pystr :=
  sorted_set (flat_map Categories df).

(** A selection in one widget only, the status widget emptied. *)
Definition only_titulaires (selected : list pystr) : Selection :=
  {| selected_acheteurs := [];
     selected_titulaires := selected;
     selected_departments := [];
     expiration_filter := u "Tous les AO";
     status_filter := [];
     selected_categories := [] |}.

Definition only_categories (selected : list pystr) : Selection :=
  {| selected_acheteurs := [];
     selected_titulaires := [];
     selected_departments := [];
     expiration_filter := u "Tous les AO";
     status_filter := [];
     selected_categories := selected |}.

(** [filtered_df.iterrows()]: the rows that stay, each with its label, which
    is its position in [df]. *)
Definition iterrows (df : list Row) (sel : Selection) : list (nat * Row) :=
  List.filter (fun ir => passes sel (snd ir)) (combine (seq 0 (length df)) df).

Definition anchor_id (idx : nat) : pystr := u "detail_" ++ dec_of_nat idx.

(** The dictionary [detail_anchors], filled row after row. *)
Definition detail_anchors (rows : list (nat * Row)) : gmap (list N) (list N) :=
  fold_left (fun anchors ir => <[Task (snd ir) := anchor_id (fst ir)]> anchors) rows ∅.

(** [idx] labels the last row of [rows] whose title is [task]. *)
Definition last_with_title (rows : list (nat * Row)) (task : pystr) (idx : nat) : Prop :=
  exists pre row post,
    rows = pre ++ (idx, row) :: post /\ Task row = task /\
    Forall (fun ir => Task (snd ir) <> task) post.

(** [detail_anchors[task]]. *)
Definition anchor_of (anchors : gmap (list N) (list N)) (task : pystr) : result pystr :=
  match anchors !! task with
  | Some anchor => Ok anchor
  | None => Raise (Exn KeyError (quoted task))
  end.

Fixpoint traverse {A B} (f : A -> result B) (l : list A) : result (list B) :=
  match l with
  | [] => Ok []
  | x :: r => let* y := f x in let* ys := traverse f r in Ok (y :: ys)
  end.

(** One expander of the detail view: the anchor of its [div], the row, and
    each lot with the categories shown under it.  The dates, which the view
    prints with [strftime], are those of the row. *)
Record detail := {
  div_id : pystr;
  detail_row : Row;
  lot_lines : list (pyval * list pystr)
}.

(** The option lists of the four multiselect widgets. *)
Record widgets := {
  opt_acheteurs : list pyval;
  opt_titulaires : list pystr;
  opt_departments : list pyval;
  opt_categories : list pystr
}.

(** What the page shows under its title. *)
Inductive page :=
  | NoValidData
  | NoMatch (options : widgets)
  | Dashboard (options : widgets)
              (total active expiring finished : nat) (details : list detail).

(** How a run of [main] ends: with an exception, or with the warnings of
    the load and a page. *)
Inductive session :=
  | Aborted (e : exn)
  | Shown (warnings : list pystr) (p : page).

Section Main.
Context `{R : Runtime}.

(** [sorted(list(set(values)))] on arbitrary values, taken from the
    interpreter: it fails on a value that cannot be hashed and on two values
    that cannot be compared. *)
Variable py_sorted_set : list pyval -> result (list pyval).

(** [create_timeline_figure] followed by [st.plotly_chart], on the frame it
    is given: the drawing is the plotting library's. *)
Variable plot_timeline : list Row -> result unit.

(** [for lot in row['Lots']: categories = categorize_lot(lot)]. *)
Definition show_lots (row : Row) : result (list (pyval * list pystr)) :=
  let* lots := py_iter (Lots row) in
  traverse (fun lot => let* categories := categorize_lot_val lot in Ok (lot, categories))
           lots.

Definition show_detail (anchors : gmap (list N) (list N)) (row : Row) : result detail :=
  let* anchor := anchor_of anchors (Task row) in
  let* lines := show_lots row in
  Ok {| div_id := anchor; detail_row := row; lot_lines := lines |}.

(** The four option lists, in the order [main] computes them. *)
Definition make_widgets (df : list Row) : result widgets :=
  let* acheteurs := py_sorted_set (List.map Resource df) in
  let titulaires := titulaires df in
  let* all_departments := py_sorted_set (flat_map Departments df) in
  let all_categories := all_categories df in
  Ok {| opt_acheteurs := acheteurs;
        opt_titulaires := titulaires;
        opt_departments := all_departments;
        opt_categories := all_categories |}.

(** [main] from the data frame on, for the selection [sel] made in the
    widgets. *)
Definition main_page (df : list Row) (sel : Selection) : result page :=
  match df with
  | [] => Ok NoValidData
  | _ :: _ =>
    let* options := make_widgets df in
    let* filtered_df := apply_filters df sel in
    match frame_rows filtered_df with
    | [] => Ok (NoMatch options)
    | _ :: _ =>
      let filtered := frame_rows filtered_df in
      let anchors := detail_anchors (iterrows df sel) in
      let* drawn := plot_timeline filtered in
      let* details := traverse (show_detail anchors) filtered in
      Ok (Dashboard options (total_aos filtered) (active_aos filtered)
            (expiring_soon filtered) (finished_aos filtered) details)
    end
  end.

(** [main] on the loaded [data], at the instant [today]. *)
Definition main (today : Z) (data : list pyval) (sel : Selection) : session :=
  match prepare_timeline_data today data with
  | Uncaught e _ _ => Aborted e
  | Returned df warnings =>
    match main_page df sel with
    | Ok p => Shown warnings p
    | Raise e => Aborted e
    end
  end.

End Main.

(** [py_sorted_set] on values that are all strings. *)
Definition sorts_strings (py_sorted_set : list pyval -> result (list pyval)) : Prop :=
  forall l : list pystr,
    py_sorted_set (List.map PStr l) = Ok (List.map PStr (sorted_set l)).

(** The buyer of every item that normalizes is a string. *)
Definition buyers_are_strings `{R : Runtime} (today : Z) (data : list pyval) : Prop :=
  forall item row, In item data -> normalized today item = Some row ->
                   exists s, Resource row = PStr s.

(** The status a row of the table can have. *)
Definition status_known (row : Row) : Prop :=
  Status row = (if Days_Left row <? 0 then u "Terminé" else u "En cours").

(** A name the awardee filter can find again in a joined string: no comma
    in it, no white space around it. *)
Definition clean_name (name : pystr) : Prop :=
  ~ In 44%N name /\ strip name = name.

(* ===================================================================== *)
(** ** A runtime to run the program on examples *)
(* ===================================================================== *)

Module Example.

(** [str.lower] on the Basic Latin and Latin-1 letters and on the ligature
    of the keyword list; other code points are left as they are. *)
Definition latin_lower_cp (c : cp) : cp :=
  if ((65 <=? c) && (c <=? 90))%N then (c + 32)%N
  else if ((192 <=? c) && (c <=? 222) && negb (c =? 215))%N then (c + 32)%N
  else if (c =? 338)%N then 339%N
  else c.

Definition latin_lower (s : pystr) : pystr := List.map latin_lower_cp s.

Definition dec_of_Z (z : Z) : pystr :=
  if z <? 0 then u "-" ++ dec_of_nat (Z.to_nat (- z)) else dec_of_nat (Z.to_nat z).

(** [str] on a scalar; a list or a dictionary, which the examples never
    format, is shown by its type name. *)
Definition scalar_str (v : pyval) : pystr :=
  match v with
  | PNone => u "None"
  | PBool true => u "True"
  | PBool false => u "False"
  | PInt z => dec_of_Z z
  | PFloat r => r
  | PStr s => s
  | v => u "<" ++ type_name v ++ u ">"
  end.

Definition digit (c : cp) : option Z :=
  if ((48 <=? c) && (c <=? 57))%N then Some (Z.of_N c - 48) else None.

Definition is_leap (y : Z) : bool :=
  (y mod 4 =? 0) && (negb (y mod 100 =? 0) || (y mod 400 =? 0)).

Definition days_in_month (y m : Z) : Z :=
  if m =? 2 then (if is_leap y then 29 else 28)
  else if (m =? 4) || (m =? 6) || (m =? 9) || (m =? 11) then 30
  else 31.

(** Days from 1970-01-01 to the civil date [y]-[m]-[d]. *)
Definition days_from_civil (y m d : Z) : Z :=
  let y' := if m <=? 2 then y - 1 else y in
  let era := y' / 400 in
  let yoe := y' - era * 400 in
  let doy := (153 * (if 2 <? m then m - 3 else m + 9) + 2) / 5 + d - 1 in
  let doe := yoe * 365 + yoe / 4 - yoe / 100 + doy in
  era * 146097 + doe - 719468.

(** Midnight of a calendar date, in nanoseconds since the epoch. *)
Definition midnight (y m d : Z) : Z := days_from_civil y m d * ns_per_day.

Definition unparseable (s : pystr) : exn :=
  Exn ValueError (u "Unknown datetime string format, unable to parse: " ++ s).

(** [pd.to_datetime] on the two kinds of value the examples give it:
    [None], which stays missing, and a date written [YYYY-MM-DD], which
    becomes the [Timestamp] of its midnight.  Everything else raises
    [ValueError] here. *)
Definition iso_to_datetime (v : pyval) : result (option Z) :=
  match v with
  | PNone => Ok None
  | PStr ([y1; y2; y3; y4; 45; m1; m2; 45; d1; d2]%N as s) =>
    match digit y1, digit y2, digit y3, digit y4, digit m1, digit m2, digit d1, digit d2 with
    | Some a, Some b, Some c, Some d, Some e, Some f, Some g, Some h =>
      let y := 1000 * a + 100 * b + 10 * c + d in
      let m := 10 * e + f in
      let dd := 10 * g + h in
      if (1 <=? m) && (m <=? 12) && (1 <=? dd) && (dd <=? days_in_month y m)
      then Ok (Some (midnight y m dd))
      else Raise (unparseable s)
    | _, _, _, _, _, _, _, _ => Raise (unparseable s)
    end
  | PStr s => Raise (unparseable s)
  | v => Raise (Exn ValueError (u "cannot convert input of type " ++ type_name v))
  end.

#[export] Instance runtime : Runtime := {|
  str_lower := latin_lower;
  py_str := scalar_str;
  to_datetime := iso_to_datetime
|}.

(** 2024-06-01 at 15:00. *)
Definition afternoon : Z := midnight 2024 6 1 + 15 * 3600 * 1000000000.

(** The record of the specification's worked example. *)
Definition poulet_bio : pyval :=
  PDict [ (u "idweb", PStr (u "24-0001"));
          (u "date_debut", PStr (u "2024-01-01"));
          (u "date_fin", PStr (u "2024-01-10"));
          (u "objet", PStr (u "Fourniture de poulet bio"));
          (u "nomacheteur", PStr (u "Ville X"));
          (u "titulaire", PStr (u "Co A"));
          (u "code_departement", PStr (u "75"));
          (u "LOTS", PList [PStr (u "Poulet bio fermier")]) ].

(** A tender with the given identifier, end date and awardees. *)
Definition tender (idweb : pystr) (date_fin titulaire : pyval) : pyval :=
  PDict [ (u "idweb", PStr idweb);
          (u "date_debut", PStr (u "2024-01-01"));
          (u "date_fin", date_fin);
          (u "objet", PStr (u "Fruits et riz"));
          (u "nomacheteur", PStr (u "Ville Y"));
          (u "titulaire", titulaire);
          (u "code_departement", PList [PStr (u "31"); PStr (u "32")]);
          (u "LOTS", PList [PStr (u "Fruits frais"); PStr (u "Riz long")]) ].

(** A row with [d] days left, as [prepare_timeline_data] would build it from
    a tender without lots. *)
Definition row_ending_in (d : Z) : Row :=
  let status := if d <? 0 then u "Terminé" else u "En cours" in
  {| Task := u "[" ++ status ++ u "] " ++ u "Pain";
     Start := midnight 2024 1 1;
     Finish := midnight 2024 6 1 + d * ns_per_day;
     Resource := PStr (u "Ville Z");
     Department := u "75";
     Departments := [PStr (u "75")];
     Titulaire := u "Co A, Co B";
     Days_Left := d;
     Status := status;
     Lots := PList [];
     Categories := [];
     URL := PStr empty_str |}.

(** A tender whose start date is missing. *)
Definition undated : pyval :=
  PDict [ (u "idweb", PStr (u "24-0002"));
          (u "date_debut", PNone);
          (u "date_fin", PStr (u "2024-12-31"));
          (u "objet", PStr (u "Pain"));
          (u "nomacheteur", PStr (u "Ville Z"));
          (u "titulaire", PStr (u "Co B"));
          (u "code_departement", PStr (u "31")) ].

(** A tender without [objet] and without [idweb]. *)
Definition untitled : pyval :=
  PDict [ (u "date_debut", PStr (u "2024-01-01"));
          (u "date_fin", PStr (u "2024-12-31"));
          (u "nomacheteur", PStr (u "Ville Z"));
          (u "titulaire", PStr (u "Co B"));
          (u "code_departement", PStr (u "31")) ].

(** A tender of two awardees ending on 2024-06-02. *)
Definition two_awardees : pyval :=
  tender (u "24-0003") (PStr (u "2024-06-02")) (PList [PStr (u "Co A"); PStr (u "Co B")]).

(** The input of the runs below: the worked example, a tender without start
    date, a tender without object, and the tender of two awardees. *)
Definition sample_data : list pyval := [poulet_bio; undated; untitled; two_awardees].

(** [sorted(list(set(values)))] when every value is a string; the examples
    give it nothing else. *)
Definition sorted_strings (values : list pyval) : result (list pyval) :=
  let* names := str_items 0 values in Ok (List.map PStr (sorted_set names)).

(** Three rows with 10, -10 and 95 days left. *)
Definition sample_frame : list Row :=
  [row_ending_in 10; row_ending_in (-10); row_ending_in 95].

(** The items of a tender with neither LOTS nor url_avis. *)
Definition bare_items : list (list N * pyval) :=
  [ (u "date_debut", PStr (u "2024-01-01"));
    (u "date_fin", PStr (u "2024-12-31"));
    (u "objet", PStr (u "Pain"));
    (u "nomacheteur", PStr (u "Ville Z"));
    (u "titulaire", PStr (u "Co B"));
    (u "code_departement", PStr (u "31")) ].

(** A tender one of whose lots is a number. *)
Definition numbered_lot : pyval :=
  PDict [ (u "idweb", PStr (u "24-0005"));
          (u "date_debut", PStr (u "2024-01-01"));
          (u "date_fin", PStr (u "2024-12-31"));
          (u "objet", PStr (u "Pain"));
          (u "nomacheteur", PStr (u "Ville Z"));
          (u "titulaire", PStr (u "Co B"));
          (u "code_departement", PStr (u "31"));
          (u "LOTS", PList [PStr (u "Pain"); PInt 3]) ].

(** The table and the warnings of the load of [sample_data] at 15:00 on
    2024-06-01. *)
Definition sample_table : list Row := omap (normalized afternoon) sample_data.

Definition sample_warnings : list pystr := omap (warning_of afternoon) sample_data.

(** A buyer, an awardee and a department that no row has together. *)
Definition crossed_selection : Selection :=
  string_selection [u "Ville X"] [u "Co B"] [u "75"] (u "Tous les AO") [u "En cours"] [].

(** A chart that is always drawn. *)
Definition always_drawn (frame : list Row) : result unit := Ok tt.

(** Two rows with the same title, then one with another title. *)
Definition twin_frame : list Row :=
  [row_ending_in 10; row_ending_in 20; row_ending_in (-10)].

End Example.

(* ===================================================================== *)
(** ** Strings: the substring test *)
(* ===================================================================== *)

Lemma startswith_spec (s p : pystr) :
  startswith s p = true <-> exists c, s = p ++ c.
Proof.
  revert s; induction p as [|a p IH]; intros s; simpl.
  - split; [intros _; now exists s | now destruct s].
  - destruct s as [|b s]; simpl.
    + split; [discriminate | intros [c Hc]; discriminate].
    + rewrite andb_true_iff, N.eqb_eq, IH. split.
      * intros [-> [c ->]]. now exists c.
      * intros [c Hc]. injection Hc as -> ->. split; [reflexivity | now exists c].
Qed.

Lemma contains_spec (s p : pystr) :
  contains s p = true <-> substring p s.
Proof.
  unfold substring. induction s as [|b s IH].
  - cbn [contains]. rewrite orb_false_r, startswith_spec. split.
    + intros [c Hc]. now exists [], c.
    + intros [a [c Hc]]. destruct a; [now exists c | discriminate].
  - cbn [contains]. rewrite orb_true_iff, startswith_spec, IH. split.
    + intros [[c Hc] | [a [c Hc]]].
      * now exists [], c.
      * exists (b :: a), c. now rewrite Hc.
    + intros [a [c Hc]]. destruct a as [|b' a].
      * left. now exists c.
      * right. injection Hc as -> ->. now exists a, c.
Qed.

Lemma ascii_lower_is_ascii (c : cp) :
  is_ascii (ascii_lower c) = true -> is_ascii c = true.
Proof.
  unfold is_ascii, ascii_lower.
  destruct ((65 <=? c) && (c <=? 90))%N eqn:E; [|trivial].
  apply andb_true_iff in E as [_ E%N.leb_le]. intros _. apply N.ltb_lt. lia.
Qed.

Lemma lowered_is_ascii (w kw : pystr) :
  List.map ascii_lower w = kw -> forallb is_ascii kw = true ->
  forallb is_ascii w = true.
Proof.
  intros <-. induction w as [|c w IH]; simpl; [trivial|].
  rewrite !andb_true_iff. intros [Hc Hw]. split; [now apply ascii_lower_is_ascii | auto].
Qed.

(* ===================================================================== *)
(** ** The categorizer *)
(* ===================================================================== *)

Lemma categorize_loop_filter (lot_name : pystr) items categories :
  categorize_loop lot_name items categories =
  categories ++ List.map fst (List.filter (fun ck => any_keyword lot_name (snd ck)) items).
Proof.
  revert categories; induction items as [|[category keywords] rest IH]; intros categories.
  - simpl. now rewrite app_nil_r.
  - simpl. destruct (any_keyword lot_name keywords).
    + rewrite IH. simpl. now rewrite <- app_assoc.
    + apply IH.
Qed.

Lemma NoDup_map_filter {A B} (f : A -> B) (p : A -> bool) (l : list A) :
  NoDup (List.map f l) -> NoDup (List.map f (List.filter p l)).
Proof.
  induction l as [|x l IH]; simpl; [trivial|].
  intros H. apply NoDup_cons in H as [Hx Hl]. rewrite list_elem_of_In in Hx.
  destruct (p x); simpl; [|auto].
  apply NoDup_cons. split; [|auto].
  rewrite list_elem_of_In. intros Hin. apply Hx. apply in_map_iff in Hin as [y [Hy Hin]].
  apply filter_In in Hin as [Hin _]. apply in_map_iff. now exists y.
Qed.

Lemma category_labels_NoDup : NoDup category_labels.
Proof. apply (bool_decide_eq_true_1 _ (Decision0 := NoDup_dec _)). vm_compute. reflexivity. Qed.

Lemma any_keyword_spec (lot_name : pystr) keywords :
  any_keyword lot_name keywords = true <->
  exists keyword, In keyword keywords /\ substring keyword lot_name.
Proof.
  unfold any_keyword. rewrite existsb_exists.
  split; intros [kw [H1 H2]]; exists kw; (split; [assumption|]);
    now apply contains_spec.
Qed.

Section CategorizerFacts.
Context `{R : Runtime}.

Lemma categorize_lot_filter (lot_name : pystr) :
  categorize_lot lot_name =
  List.map fst (List.filter (fun ck => any_keyword (str_lower lot_name) (snd ck))
                  category_keywords).
Proof. unfold categorize_lot. now rewrite categorize_loop_filter. Qed.

Lemma categorize_lot_In (lot_name category : pystr) :
  In category (categorize_lot lot_name) <->
  exists keywords keyword,
    In (category, keywords) category_keywords /\ In keyword keywords /\
    substring keyword (str_lower lot_name).
Proof.
  rewrite categorize_lot_filter, in_map_iff. split.
  - intros [[c kws] [Hc Hin]]. simpl in Hc. subst c.
    apply filter_In in Hin as [Hin Hany]. simpl in Hany.
    apply any_keyword_spec in Hany as [kw [Hkw Hsub]]. now exists kws, kw.
  - intros [kws [kw [Hin [Hkw Hsub]]]]. exists (category, kws). split; [reflexivity|].
    apply filter_In. split; [assumption|]. simpl. apply any_keyword_spec. now exists kw.
Qed.

Lemma categorize_lot_NoDup (lot_name : pystr) : NoDup (categorize_lot lot_name).
Proof.
  rewrite categorize_lot_filter. apply NoDup_map_filter. exact category_labels_NoDup.
Qed.

Lemma categorize_lot_labels (lot_name category : pystr) :
  In category (categorize_lot lot_name) -> In category category_labels.
Proof.
  rewrite categorize_lot_In. intros [kws [_ [Hin _]]].
  unfold category_labels. apply in_map_iff. now exists (category, kws).
Qed.

Context {L : RuntimeLaws R}.

Lemma lowered_substring (kw lot_name : pystr) :
  forallb is_ascii kw = true -> contains_nocase kw lot_name ->
  substring kw (str_lower lot_name).
Proof.
  intros Hkw [w [Hw [a [c ->]]]].
  destruct (str_lower_ascii a w c) as [a' [c' ->]].
  - now apply lowered_is_ascii with (kw := kw).
  - rewrite Hw. now exists a', c'.
Qed.

End CategorizerFacts.

(** C6. [categorize_lot] lower-cases the lot name and returns a category
    exactly when one of the keywords listed for it is a substring of the
    lower-cased name.  Hence a name that holds "poulet" and "bio", in any
    casing, is given both Volaille and BIO, and a name in which no keyword
    occurs is given the empty list, without an exception. *)
Theorem C6_categorize_lot_by_keyword `{R : Runtime} (L : RuntimeLaws R) :
  (forall lot_name category : pystr,
     In category (categorize_lot lot_name) <->
     exists keywords keyword,
       In (category, keywords) category_keywords /\ In keyword keywords /\
       substring keyword (str_lower lot_name))
  /\ (forall lot_name : pystr,
       contains_nocase (u "poulet") lot_name -> contains_nocase (u "bio") lot_name ->
       In (u "Volaille") (categorize_lot lot_name) /\
       In (u "BIO") (categorize_lot lot_name))
  /\ (forall lot_name : pystr,
       (forall category keywords keyword,
          In (category, keywords) category_keywords -> In keyword keywords ->
          ~ substring keyword (str_lower lot_name)) ->
       categorize_lot_val (PStr lot_name) = Ok []).
Proof.
  split; [exact categorize_lot_In | split].
  - intros lot_name Hp Hb. split; apply categorize_lot_In.
    + exists [u "volaille"; u "poulet"; u "dinde"], (u "poulet").
      split; [vm_compute; tauto | split; [vm_compute; tauto |]].
      now apply lowered_substring.
    + exists [u "bio"], (u "bio").
      split; [vm_compute; tauto | split; [vm_compute; tauto |]].
      now apply lowered_substring.
  - intros lot_name Hno. simpl. f_equal.
    destruct (categorize_lot lot_name) as [|c l] eqn:E; [reflexivity|].
    exfalso. assert (Hin : In c (categorize_lot lot_name)) by (rewrite E; now left).
    apply categorize_lot_In in Hin as [kws [kw [H1 [H2 H3]]]]. exact (Hno _ _ _ H1 H2 H3).
Qed.

(* ===================================================================== *)
(** ** One item of the input *)
(* ===================================================================== *)

Lemma bind_Ok {A B} (r : result A) (k : A -> result B) (b : B) :
  bind r k = Ok b -> exists a, r = Ok a /\ k a = Ok b.
Proof. destruct r as [a|e]; simpl; [now exists a | discriminate]. Qed.

Ltac bind_inv H :=
  let a := fresh "v" in
  let E := fresh "E" in
  apply bind_Ok in H as [a [E H]].

Lemma str_items_map (l : list pyval) : forall i ss,
  str_items i l = Ok ss -> l = List.map PStr ss.
Proof.
  induction l as [|v l IH]; intros i ss H; simpl in H.
  - now injection H as <-.
  - destruct v; try discriminate. bind_inv H. injection H as <-.
    simpl. f_equal. now apply (IH (S i)).
Qed.

Lemma str_join_map (sep : pystr) (l : list pyval) (s : pystr) :
  str_join sep l = Ok s -> exists ss, l = List.map PStr ss /\ s = join sep ss.
Proof.
  unfold str_join. intros H. bind_inv H. injection H as <-.
  exists v. split; [now apply str_items_map with (i := 0%nat) | reflexivity].
Qed.

Section NormalizerFacts.
Context `{R : Runtime}.
Variable today : Z.

Lemma try_item_appended (item : pyval) (row : Row) :
  try_item today item = Ok (Some row) -> appended today item row.
Proof.
  unfold try_item. intros H.
  bind_inv H. bind_inv H. bind_inv H. bind_inv H.
  destruct v0 as [start_date|]; [|discriminate].
  destruct v2 as [end_date|]; [|discriminate].
  cbv zeta in H.
  bind_inv H. bind_inv H. bind_inv H. bind_inv H. bind_inv H. bind_inv H.
  bind_inv H. bind_inv H. bind_inv H. bind_inv H. bind_inv H.
  injection H as <-.
  constructor; cbn [Start Finish Days_Left Status Titulaire Departments Department
                    Lots Categories Task Resource URL]; eauto 10.
Qed.

Lemma normalized_Some (item : pyval) (row : Row) :
  normalized today item = Some row <-> try_item today item = Ok (Some row).
Proof.
  unfold normalized. destruct (try_item today item) as [[r|]|e]; split; congruence.
Qed.

Lemma process_item_Appended (item : pyval) (row : Row) :
  process_item today item = Appended row <-> normalized today item = Some row.
Proof.
  unfold process_item, normalized.
  destruct (try_item today item) as [[r|]|e]; try (split; congruence).
  destruct (caught (exn_cls e)); [|split; congruence].
  destruct (dict_get item _ _); split; congruence.
Qed.

Lemma normalized_process_item (item : pyval) :
  normalized today item =
  match process_item today item with Appended row => Some row | _ => None end.
Proof.
  destruct (process_item today item) as [row| |w|e] eqn:E.
  - now apply process_item_Appended.
  - destruct (normalized today item) as [row|] eqn:N; [|reflexivity].
    apply process_item_Appended in N. congruence.
  - destruct (normalized today item) as [row|] eqn:N; [|reflexivity].
    apply process_item_Appended in N. congruence.
  - destruct (normalized today item) as [row|] eqn:N; [|reflexivity].
    apply process_item_Appended in N. congruence.
Qed.

(* --------------------------------------------------------------------- *)
(** *** The loop *)

Lemma timeline_loop_returns (data : list pyval) : forall tl ws,
  Forall (fun item => crashes today item = false) data ->
  timeline_loop today data tl ws =
  Returned (tl ++ omap (normalized today) data) (ws ++ omap (warning_of today) data).
Proof.
  induction data as [|item rest IH]; intros tl ws Hall.
  - simpl. now rewrite !app_nil_r.
  - apply Forall_cons in Hall as [Hitem Hrest].
    cbn [timeline_loop omap list_omap]. fold (omap (normalized today) rest).
    fold (omap (warning_of today) rest).
    rewrite normalized_process_item. unfold warning_of at 1. unfold crashes in Hitem.
    destruct (process_item today item) as [row| |w|e]; try discriminate;
      rewrite (IH _ _ Hrest); now rewrite <- ?app_assoc.
Qed.

Lemma timeline_loop_no_crash (data : list pyval) : forall tl ws tl' ws',
  timeline_loop today data tl ws = Returned tl' ws' ->
  Forall (fun item => crashes today item = false) data.
Proof.
  induction data as [|item rest IH]; intros tl ws tl' ws' H; [constructor|].
  cbn [timeline_loop] in H. apply Forall_cons. unfold crashes.
  destruct (process_item today item) as [row| |w|e]; try discriminate;
    (split; [reflexivity | eapply IH; eassumption]).
Qed.

Lemma prepare_timeline_data_Returned (data : list pyval) tl ws :
  prepare_timeline_data today data = Returned tl ws <->
  Forall (fun item => crashes today item = false) data /\
  tl = omap (normalized today) data /\ ws = omap (warning_of today) data.
Proof.
  unfold prepare_timeline_data. split.
  - intros H. pose proof (timeline_loop_no_crash _ _ _ _ _ H) as Hall.
    rewrite (timeline_loop_returns _ _ _ Hall) in H. simpl in H.
    injection H as <- <-. auto.
  - intros [Hall [-> ->]]. now rewrite (timeline_loop_returns _ _ _ Hall).
Qed.

(* --------------------------------------------------------------------- *)
(** *** Categories of a row *)

Lemma update_categories_labels (lots : list pyval) : forall acc all_categories,
  update_categories lots acc = Ok all_categories ->
  forall c, c ∈ all_categories -> c ∈ acc \/ In c category_labels.
Proof.
  induction lots as [|lot rest IH]; intros acc all_categories H c Hc; simpl in H.
  - injection H as <-. now left.
  - bind_inv H. destruct (IH _ _ H c Hc) as [Hin | Hin]; [|now right].
    apply elem_of_union in Hin as [Hin | Hin]; [now left | right].
    apply elem_of_list_to_set, list_elem_of_In in Hin.
    destruct lot; try discriminate. injection E as <-.
    now apply categorize_lot_labels in Hin.
Qed.

Lemma appended_categories (item : pyval) (row : Row) :
  appended today item row ->
  NoDup (Categories row) /\ forall c, In c (Categories row) -> In c category_labels.
Proof.
  intros [_ _ _ _ _ _ _ [lot_seq [all_categories [_ [Hup ->]]]] _ _ _]. split.
  - apply NoDup_elements.
  - intros c Hc. apply list_elem_of_In, elem_of_elements in Hc.
    destruct (update_categories_labels _ _ _ Hup c Hc) as [Hin | Hin]; [|assumption].
    now apply not_elem_of_empty in Hin.
Qed.

(* --------------------------------------------------------------------- *)
(** *** Days left and status *)

Lemma timedelta_days_floor (end_date : Z) :
  ns_per_day * timedelta_days end_date today <= end_date - today
  < ns_per_day * (timedelta_days end_date today + 1).
Proof.
  unfold timedelta_days. assert (0 < ns_per_day) by reflexivity.
  pose proof (Z.mul_div_le (end_date - today) ns_per_day).
  pose proof (Z.mul_succ_div_gt (end_date - today) ns_per_day). lia.
Qed.

Lemma timedelta_days_unique (end_date d : Z) :
  ns_per_day * d <= end_date - today < ns_per_day * (d + 1) ->
  timedelta_days end_date today = d.
Proof.
  intros H. pose proof (timedelta_days_floor end_date) as F.
  assert (0 < ns_per_day) by reflexivity. nia.
Qed.

Lemma status_values : u "Terminé" <> u "En cours".
Proof. vm_compute. discriminate. Qed.

Lemma objet_text_str (v : pyval) (text : pystr) :
  objet_text v = Ok text ->
  exists objet, v = PStr objet /\
    text = if (80 <? length objet)%nat then firstn 80 objet ++ u "..." else objet.
Proof.
  destruct v; simpl; try discriminate. intros H. injection H as <-. now exists s.
Qed.

(* --------------------------------------------------------------------- *)
(** *** Items left out of the table *)


Lemma process_item_raise (item : pyval) (e : exn) :
  try_item today item = Raise e ->
  process_item today item =
  if caught (exn_cls e) then
    match dict_get item (u "idweb") (PStr (u "ID inconnu")) with
    | Ok idweb => Warned (warning_text idweb e)
    | Raise e' => Crashed e'
    end
  else Crashed e.
Proof. unfold process_item. now intros ->. Qed.


End NormalizerFacts.

(** X21.  When the run returns, the table is the list of the rows of the
    items that normalize, in the order of the input; and the run does
    return that table whenever no item raises an exception the loop does
    not catch. *)
Theorem table_follows_input_order `{R : Runtime} (today : Z) (data : list pyval) :
  (forall tl ws, prepare_timeline_data today data = Returned tl ws ->
                 tl = omap (normalized today) data)
  /\ (Forall (fun item => crashes today item = false) data ->
      exists ws, prepare_timeline_data today data
                 = Returned (omap (normalized today) data) ws).
Proof.
  split.
  - intros tl ws H. now apply prepare_timeline_data_Returned in H as [_ [-> _]].
  - intros Hall. exists (omap (warning_of today) data).
    now apply prepare_timeline_data_Returned.
Qed.

(** C10. [categorize_lot] returns no label twice and only keys of
    [category_keywords], which are eleven distinct labels; hence the
    [Categories] of every row of the built table is a duplicate-free list of
    these labels. *)
Theorem C10_categories_within_taxonomy `{R : Runtime} :
  length category_labels = 11%nat /\ NoDup category_labels
  /\ (forall lot_name : pystr,
       NoDup (categorize_lot lot_name) /\
       forall c, In c (categorize_lot lot_name) -> In c category_labels)
  /\ (forall today data tl ws,
       prepare_timeline_data today data = Returned tl ws ->
       Forall (fun row => NoDup (Categories row) /\
                          forall c, In c (Categories row) -> In c category_labels) tl).
Proof.
  split; [reflexivity | split; [exact category_labels_NoDup | split]].
  - intros lot_name. split; [apply categorize_lot_NoDup | apply categorize_lot_labels].
  - intros today data tl ws H.
    apply prepare_timeline_data_Returned in H as [_ [-> _]].
    apply List.Forall_forall. intros row Hrow.
    apply list_elem_of_In, list_elem_of_omap in Hrow as [item [_ Hrow]].
    apply normalized_Some, try_item_appended in Hrow.
    exact (appended_categories today item row Hrow).
Qed.

(** C7. A normalized record is "Terminé" exactly when its [Days_Left] is
    negative and "En cours" otherwise, and its title is the status between
    square brackets, a space, then the object, cut to 80 characters and
    three dots when it is longer. *)
Theorem C7_status_and_title `{R : Runtime} (today : Z) (item : pyval) (row : Row) :
  normalized today item = Some row ->
  (Status row = u "Terminé" <-> Days_Left row < 0)
  /\ (Status row = u "En cours" <-> 0 <= Days_Left row)
  /\ exists objet, getitem item (u "objet") = Ok (PStr objet)
      /\ Task row = u "[" ++ Status row ++ u "] "
                     ++ (if (80 <? length objet)%nat
                         then firstn 80 objet ++ u "..." else objet).
Proof.
  intros H. apply normalized_Some, try_item_appended in H.
  destruct H as [_ _ _ Hst _ _ _ _ [v [text [Hobj [Htext Htask]]]] _ _].
  pose proof status_values as Hne.
  split; [|split].
  - rewrite Hst. destruct (Z.ltb_spec (Days_Left row) 0); split; try lia; congruence.
  - rewrite Hst. destruct (Z.ltb_spec (Days_Left row) 0); split; try lia; congruence.
  - apply objet_text_str in Htext as [objet [-> ->]]. now exists objet.
Qed.


(** C3, as the code has it.  The awardees of a normalized record are one
    string: the elements of [titulaire] joined by ", " when it is a list,
    and [str(titulaire)] otherwise, which is the join of the one-element
    list of that string, and the name itself when [titulaire] is a string.  The departments are kept twice: as the list, or
    the one-element list of [str(code_departement)], and as that list
    joined by ", ". *)
Theorem C3_awardees_kept_as_joined_string `{R : Runtime} (L : RuntimeLaws R)
    (today : Z) (item : pyval) (row : Row) :
  normalized today item = Some row ->
  (exists v names,
     getitem item (u "titulaire") = Ok v /\
     one_or_many v = List.map PStr names /\
     Titulaire row = join (u ", ") names)
  /\ (forall name, getitem item (u "titulaire") = Ok (PStr name) -> Titulaire row = name)
  /\ (exists v depts,
       getitem item (u "code_departement") = Ok v /\
       Departments row = one_or_many v /\
       Departments row = List.map PStr depts /\
       Department row = join (u ", ") depts).
Proof.
  intros H. apply normalized_Some, try_item_appended in H.
  destruct H as [_ _ _ _ [v [Hv Ht]] [w [Hw [Hd Hj]]] _ _ _ _ _]. split; [|split].
  - exists v.
    assert (Hscalar : forall x, Ok (py_str v) = Ok x ->
              exists names, [PStr (py_str v)] = List.map PStr names /\ x = join (u ", ") names).
    { intros x Hx. injection Hx as <-. now exists [py_str v]. }
    destruct v; try (destruct (Hscalar _ Ht) as [names [H1 H2]]; now exists names).
    apply str_join_map in Ht as [names [H1 H2]]. now exists names.
  - intros name Hname. rewrite Hv in Hname. injection Hname as ->.
    rewrite py_str_str in Ht. now injection Ht.
  - apply str_join_map in Hj as [depts [H1 H2]]. now exists w, depts.
Qed.

(** C4, as the code has it.  [Days_Left] is the floor of the time from the
    instant [today], time of day included, to [Finish], in days.  An end
    exactly one day after that instant gives 1 and one day before it gives
    -1.  Counted from the calendar day of [today], the next midnight gives
    1 and the previous one -1 only when [today] is itself a midnight; at any
    other time of day they give 0 and -2. *)
Theorem C4_days_left_floor_from_instant `{R : Runtime}
    (today : Z) (item : pyval) (row : Row) :
  normalized today item = Some row ->
  (exists v, getitem item (u "date_fin") = Ok v /\ to_datetime v = Ok (Some (Finish row)))
  /\ Days_Left row = (Finish row - today) / ns_per_day
  /\ ns_per_day * Days_Left row <= Finish row - today < ns_per_day * (Days_Left row + 1)
  /\ (Finish row = today + ns_per_day -> Days_Left row = 1)
  /\ (Finish row = today - ns_per_day -> Days_Left row = -1)
  /\ (today mod ns_per_day = 0 ->
      (Finish row = midnight_of today + ns_per_day -> Days_Left row = 1) /\
      (Finish row = midnight_of today - ns_per_day -> Days_Left row = -1))
  /\ (today mod ns_per_day <> 0 ->
      (Finish row = midnight_of today + ns_per_day -> Days_Left row = 0) /\
      (Finish row = midnight_of today - ns_per_day -> Days_Left row = -2)).
Proof.
  intros H. apply normalized_Some, try_item_appended in H.
  destruct H as [_ Hfin Hd _ _ _ _ _ _ _ _].
  assert (Hpos : 0 < ns_per_day) by reflexivity.
  pose proof (Z.mod_pos_bound today ns_per_day Hpos) as Hmod.
  unfold midnight_of.
  assert (Hday : forall d, ns_per_day * d <= Finish row - today < ns_per_day * (d + 1) ->
                           Days_Left row = d).
  { intros d Hb. rewrite Hd. now apply timedelta_days_unique. }
  split; [exact Hfin|]. split; [exact Hd|].
  split; [rewrite Hd; apply timedelta_days_floor|].
  split; [intros E; apply Hday; lia|].
  split; [intros E; apply Hday; lia|].
  split; intros Ht; (split; intros E; apply Hday; lia).
Qed.

(* ===================================================================== *)
(** ** The filters *)
(* ===================================================================== *)

Lemma str_eqb_eq (a b : pystr) : str_eqb a b = true <-> a = b.
Proof. unfold str_eqb. apply bool_decide_eq_true. Qed.

Lemma str_in_In (x : pystr) (l : list pystr) : str_in x l = true <-> In x l.
Proof.
  unfold str_in. rewrite existsb_exists. split.
  - intros [y [Hy E]]. apply str_eqb_eq in E. now subst.
  - intros H. exists x. split; [assumption | now apply str_eqb_eq].
Qed.

Lemma filter_twice {A} (p q : A -> bool) (l : list A) :
  List.filter q (List.filter p l) = List.filter (fun x => p x && q x) l.
Proof.
  induction l as [|x l IH]; simpl; [reflexivity|].
  destruct (p x); simpl; [destruct (q x)|]; now rewrite IH.
Qed.

Lemma filter_all {A} (l : list A) : List.filter (fun _ => true) l = l.
Proof. induction l as [|x l IH]; simpl; [reflexivity | now rewrite IH]. Qed.

Lemma restrict_dimension {A} (selection : list A) (mask : Row -> bool) frame :
  restrict selection mask frame = List.filter (dimension selection mask) frame.
Proof.
  destruct selection; simpl; [now rewrite filter_all | reflexivity].
Qed.

Lemma expiration_step_mask (expiration_filter : pystr) frame :
  expiration_step expiration_filter frame
  = List.filter (expiration_mask expiration_filter) frame.
Proof.
  unfold expiration_step, expiration_mask.
  destruct (expiration_bound expiration_filter); [reflexivity | now rewrite filter_all].
Qed.

Lemma filtered_df_passes (df : list Row) (sel : Selection) :
  filtered_df df sel = List.filter (passes sel) df.
Proof.
  unfold filtered_df, passes.
  rewrite !restrict_dimension, expiration_step_mask, !filter_twice.
  apply List.filter_ext. intros row. now rewrite !andb_assoc.
Qed.

Lemma dimension_spec {A} (selection : list A) (mask : Row -> bool) (row : Row) :
  dimension selection mask row = true <-> selection = [] \/ mask row = true.
Proof.
  destruct selection; simpl; split; auto.
  intros [H | H]; [discriminate | assumption].
Qed.

Lemma expiration_mask_spec (expiration_filter : pystr) (row : Row) :
  expiration_mask expiration_filter row = true <->
  forall bound, expiration_bound expiration_filter = Some bound -> Days_Left row <= bound.
Proof.
  unfold expiration_mask. destruct (expiration_bound expiration_filter) as [b|].
  - rewrite Z.leb_le. split; [now intros H ? [= <-] | auto].
  - split; [discriminate | reflexivity].
Qed.

(* ===================================================================== *)
(** ** The statistics and the expiration filter *)
(* ===================================================================== *)

Lemma expiring_soon_cons (row : Row) (rest : list Row) :
  expiring_soon (row :: rest)
  = ((if bool_decide (0 <= Days_Left row <= 90)%Z then 1 else 0) + expiring_soon rest)%nat.
Proof.
  unfold expiring_soon. simpl.
  destruct (Z.leb_spec (Days_Left row) 90), (Z.geb_spec (Days_Left row) 0); simpl;
    case_bool_decide; try lia; reflexivity.
Qed.

(** C8. The metric «Se terminent dans 3 mois» is the number of rows of the
    filtered frame with [0 <= Days_Left <= 90], both bounds included.  A row
    with negative [Days_Left] is not counted, while the three-month option
    of the expiration filter keeps it. *)
Theorem C8_expiring_soon_counts_0_to_90 (filtered : list Row) :
  expiring_soon filtered
  = length (List.filter (fun row => bool_decide (0 <= Days_Left row <= 90)) filtered)
  /\ expiring_soon [] = 0%nat
  /\ (forall row rest,
       expiring_soon (row :: rest)
       = ((if bool_decide (0 <= Days_Left row <= 90)%Z then 1 else 0)
          + expiring_soon rest)%nat)
  /\ (forall row rest,
       Days_Left row < 0 ->
       expiring_soon (row :: rest) = expiring_soon rest /\
       expiration_step (u "Se termine dans 3 mois") (row :: rest)
       = row :: expiration_step (u "Se termine dans 3 mois") rest).
Proof.
  split; [|split; [reflexivity | split; [exact expiring_soon_cons|]]].
  - induction filtered as [|row rest IH]; [reflexivity|].
    rewrite expiring_soon_cons, IH. simpl. now case_bool_decide.
  - intros row rest Hneg. split.
    + rewrite expiring_soon_cons. case_bool_decide; [lia | reflexivity].
    + unfold expiration_step.
      change (expiration_bound (u "Se termine dans 3 mois")) with (Some 90).
      simpl. destruct (Z.leb_spec (Days_Left row) 90); [reflexivity | lia].
Qed.

(** C1.  The option "Se termine dans 1 an et demi" holds "1 an", so the
    [elif] on "1 an" takes it before the one on "1 an et demi" is reached:
    its bound is 365 days, not 547.  The other options have the bounds 90,
    180, 365 and 730, and "Tous les AO" has none.  A row with 400 days left
    is therefore dropped by the one-and-a-half-year option. *)
Theorem C1_one_and_a_half_years_cut_at_365 :
  List.map expiration_bound expiration_options
  = [None; Some 90; Some 180; Some 365; Some 365; Some 730]
  /\ (forall frame,
       expiration_step (u "Se termine dans 1 an et demi") frame
       = List.filter (fun row => Days_Left row <=? 365) frame)
  /\ expiration_step (u "Se termine dans 1 an et demi") [Example.row_ending_in 400] = [].
Proof.
  split; [vm_compute; reflexivity | split].
  - intros frame. unfold expiration_step.
    now change (expiration_bound (u "Se termine dans 1 an et demi")) with (Some 365).
  - vm_compute. reflexivity.
Qed.

(* ===================================================================== *)
(** ** The program run on examples *)
(* ===================================================================== *)

Lemma latin_lower_ascii (b : pystr) :
  forallb is_ascii b = true ->
  Example.latin_lower b = List.map ascii_lower b.
Proof.
  unfold Example.latin_lower. induction b as [|c b IH]; simpl; [reflexivity|].
  rewrite andb_true_iff. intros [Hc Hb]. rewrite (IH Hb). f_equal.
  unfold Example.latin_lower_cp, ascii_lower, is_ascii in *.
  apply N.ltb_lt in Hc.
  destruct ((65 <=? c) && (c <=? 90))%N; [reflexivity|].
  destruct (N.leb_spec 192 c); [lia|]. simpl.
  destruct (N.eqb_spec c 338); [lia | reflexivity].
Qed.

Lemma example_runtime_laws : RuntimeLaws Example.runtime.
Proof.
  constructor.
  - reflexivity.
  - intros a b c Hb. exists (Example.latin_lower a), (Example.latin_lower c).
    simpl. unfold Example.latin_lower at 1. rewrite !List.map_app.
    fold (Example.latin_lower a) (Example.latin_lower b) (Example.latin_lower c).
    now rewrite (latin_lower_ascii b Hb).
Qed.

Import Example.

Ltac run := vm_compute; reflexivity.


(** C3, counterexample: one awardee named "Co A, Co B" and the two awardees
    "Co A" and "Co B" give the same row, so that no field of a row can hold
    the list [titulaire] was. *)
Lemma C3_awardee_list_is_not_kept :
  ~ exists awardees : Row -> list pyval, retains_awardee_list afternoon awardees.
Proof.
  intros [awardees H].
  pose (one := tender (u "24-0004") (PStr (u "2024-12-31")) (PList [PStr (u "Co A, Co B")])).
  pose (two := tender (u "24-0004") (PStr (u "2024-12-31"))
                 (PList [PStr (u "Co A"); PStr (u "Co B")])).
  assert (E : normalized afternoon two = normalized afternoon one) by run.
  destruct (normalized afternoon one) as [row|] eqn:E1; [|vm_compute in E1; discriminate].
  pose proof (H one row _ E1 ltac:(run)) as H1.
  pose proof (H two row _ E ltac:(run)) as H2.
  rewrite H1 in H2. vm_compute in H2. discriminate.
Qed.

(** C4, counterexample: at 15:00 on 2024-06-01 a tender ending on
    2024-06-02, the next calendar day, has 0 days left, not 1. *)
Lemma C4_next_day_counts_zero_in_the_afternoon : ~ counts_calendar_days afternoon.
Proof.
  intros H.
  destruct (normalized afternoon two_awardees) as [row|] eqn:E;
    [|vm_compute in E; discriminate].
  destruct (H two_awardees row E) as [H1 _].
  vm_compute in E. injection E as <-.
  specialize (H1 ltac:(run)). vm_compute in H1. discriminate.
Qed.

(** C6 on "POULET Bio fermier" and on "Pain". *)
Lemma C6_witness :
  RuntimeLaws Example.runtime
  /\ (In (u "Volaille") (categorize_lot (u "POULET Bio fermier")) /\
      In (u "BIO") (categorize_lot (u "POULET Bio fermier")))
  /\ categorize_lot_val (PStr (u "Pain")) = Ok [].
Proof.
  split; [exact example_runtime_laws | split].
  - apply (proj1 (proj2 (C6_categorize_lot_by_keyword example_runtime_laws))).
    + exists (u "POULET"). split; [run | exists [], (u " Bio fermier"); run].
    + exists (u "Bio"). split; [run | exists (u "POULET "), (u " fermier"); run].
  - apply (proj2 (proj2 (C6_categorize_lot_by_keyword example_runtime_laws))).
    intros category keywords keyword Hc Hk Hsub.
    apply contains_spec in Hsub.
    vm_compute in Hc.
    repeat (destruct Hc as [Hc | Hc];
            [injection Hc as <- <-; vm_compute in Hk;
             repeat (destruct Hk as [Hk | Hk]; [subst keyword; vm_compute in Hsub; discriminate|]);
             contradiction|]).
    contradiction.
Defined.

(** The table of [sample_data]: the first and the last tender. *)
Lemma table_follows_input_order_witness :
  Forall (fun item => crashes afternoon item = false) sample_data
  /\ (exists ws, prepare_timeline_data afternoon sample_data
                 = Returned (omap (normalized afternoon) sample_data) ws)
  /\ List.map Titulaire (omap (normalized afternoon) sample_data)
     = [u "Co A"; u "Co A, Co B"].
Proof.
  assert (Hall : Forall (fun item => crashes afternoon item = false) sample_data).
  { unfold sample_data. repeat (apply Forall_cons; split; [run|]). constructor. }
  split; [exact Hall | split; [|run]].
  exact (proj2 (table_follows_input_order afternoon sample_data) Hall).
Defined.

(** C10 on [sample_data]. *)
Lemma C10_witness :
  exists tl ws,
    prepare_timeline_data afternoon sample_data = Returned tl ws /\
    Forall (fun row => NoDup (Categories row) /\
                       forall c, In c (Categories row) -> In c category_labels) tl.
Proof.
  eexists. eexists. split; [run|].
  eapply (proj2 (proj2 (proj2 C10_categories_within_taxonomy)) afternoon sample_data).
  run.
Defined.

(** C7 on the worked example, on the morning of 2024-06-01. *)
Lemma C7_witness :
  exists row,
    normalized (midnight 2024 6 1) poulet_bio = Some row /\
    ((Status row = u "Terminé" <-> Days_Left row < 0)
     /\ (Status row = u "En cours" <-> 0 <= Days_Left row)
     /\ exists objet, getitem poulet_bio (u "objet") = Ok (PStr objet)
         /\ Task row = u "[" ++ Status row ++ u "] "
                        ++ (if (80 <? length objet)%nat
                            then firstn 80 objet ++ u "..." else objet)).
Proof.
  eexists. split; [run|].
  apply (C7_status_and_title (midnight 2024 6 1) poulet_bio). run.
Defined.

(** C4 on a tender ending on 2024-06-02, seen at 15:00 the day before. *)
Lemma C4_witness :
  exists row,
    normalized afternoon two_awardees = Some row /\
    Days_Left row = (Finish row - afternoon) / ns_per_day /\
    Days_Left row = 0.
Proof.
  eexists. split; [run|]. split; [|run].
  refine (proj1 (proj2 (C4_days_left_floor_from_instant afternoon two_awardees _ _))).
  run.
Defined.

(** C3 on the tender of two awardees. *)
Lemma C3_witness :
  exists row,
    normalized afternoon two_awardees = Some row /\
    Titulaire row = u "Co A, Co B" /\
    exists v depts,
      getitem two_awardees (u "code_departement") = Ok v /\
      Departments row = one_or_many v /\
      Departments row = List.map PStr depts /\
      Department row = join (u ", ") depts.
Proof.
  eexists. split; [run|]. split; [run|].
  refine (proj2 (proj2 (C3_awardees_kept_as_joined_string example_runtime_laws
                          afternoon two_awardees _ _))).
  run.
Defined.


(** C8 on [sample_frame], and on a finished row put before it. *)
Lemma C8_witness :
  expiring_soon sample_frame = 1%nat
  /\ expiring_soon (row_ending_in (-10) :: sample_frame) = expiring_soon sample_frame
  /\ expiration_step (u "Se termine dans 3 mois") (row_ending_in (-10) :: sample_frame)
     = row_ending_in (-10) :: expiration_step (u "Se termine dans 3 mois") sample_frame.
Proof.
  split; [run|].
  apply (proj2 (proj2 (proj2 (C8_expiring_soon_counts_0_to_90 sample_frame)))).
  vm_compute. reflexivity.
Defined.

(* ===================================================================== *)
(** ** Beyond the specification: the filters on a table *)
(* ===================================================================== *)

Lemma filter_sublist {A} (p : A -> bool) (l : list A) : sublist (List.filter p l) l.
Proof.
  induction l as [|x l IH]; simpl; [constructor|].
  destruct (p x); now constructor.
Qed.

Lemma filter_Forall {A} (P : A -> Prop) (p : A -> bool) (l : list A) :
  Forall P l -> Forall P (List.filter p l).
Proof.
  rewrite !List.Forall_forall. intros H x Hx. apply filter_In in Hx as [Hx _]. auto.
Qed.

Lemma status_known_active (row : Row) :
  status_known row ->
  str_eqb (Status row) (u "En cours") = (0 <=? Days_Left row)
  /\ str_eqb (Status row) (u "Terminé") = (Days_Left row <? 0).
Proof.
  unfold status_known. intros ->.
  destruct (Z.ltb_spec (Days_Left row) 0), (Z.leb_spec 0 (Days_Left row)); try lia;
    split; vm_compute; reflexivity.
Qed.

Lemma table_status_known `{R : Runtime} (today : Z) (data : list pyval) df ws :
  prepare_timeline_data today data = Returned df ws -> Forall status_known df.
Proof.
  intros H. apply prepare_timeline_data_Returned in H as [_ [-> _]].
  apply List.Forall_forall. intros row Hrow.
  apply list_elem_of_In, list_elem_of_omap in Hrow as [item [_ Hrow]].
  apply normalized_Some, try_item_appended in Hrow. now destruct Hrow.
Qed.

Lemma filter_ext_Forall {A} (P : A -> Prop) (p q : A -> bool) (l : list A) :
  Forall P l -> (forall x, P x -> p x = q x) -> List.filter p l = List.filter q l.
Proof.
  induction 1 as [|x l Hx Hl IH]; intros Hpq; simpl; [reflexivity|].
  rewrite (Hpq x Hx), (IH Hpq). reflexivity.
Qed.

(** X2.  On a fresh page, where only the status widget has a selection, the rows
    shown are those whose status is "En cours"; for a table built by
    [prepare_timeline_data] they are the rows that do not have a negative
    [Days_Left]. *)
Theorem default_selection_shows_active `{R : Runtime} (today : Z) (data : list pyval) :
  (forall df : list Row,
     filtered_df df default_selection
     = List.filter (fun row => str_eqb (Status row) (u "En cours")) df)
  /\ (forall df ws,
       prepare_timeline_data today data = Returned df ws ->
       filtered_df df default_selection
       = List.filter (fun row => 0 <=? Days_Left row) df).
Proof.
  assert (H0 : forall df : list Row,
     filtered_df df default_selection
     = List.filter (fun row => str_eqb (Status row) (u "En cours")) df).
  { intros df. rewrite filtered_df_passes. apply List.filter_ext. intros row.
    unfold passes, default_selection, dimension, expiration_mask; simpl.
    change (expiration_bound (u "Tous les AO")) with (@None Z).
    unfold str_in; simpl. now rewrite orb_false_r, andb_true_r. }
  split; [exact H0|]. intros df ws H. rewrite H0.
  apply (filter_ext_Forall status_known); [now apply table_status_known in H|].
  intros row Hrow. now apply status_known_active.
Qed.

Lemma expiration_step_le (o1 o2 : pystr) (b1 b2 : Z) (frame : list Row) :
  expiration_bound o1 = Some b1 -> expiration_bound o2 = Some b2 -> b1 <= b2 ->
  sublist (expiration_step o1 frame) (expiration_step o2 frame)
  /\ expiration_step o1 (expiration_step o2 frame) = expiration_step o1 frame.
Proof.
  intros H1 H2 Hle. unfold expiration_step. rewrite H1, H2. split.
  - induction frame as [|row frame IH]; simpl; [constructor|].
    destruct (Z.leb_spec (Days_Left row) b1), (Z.leb_spec (Days_Left row) b2);
      try lia; (assumption || now constructor).
  - rewrite filter_twice. apply List.filter_ext. intros row.
    destruct (Z.leb_spec (Days_Left row) b1), (Z.leb_spec (Days_Left row) b2);
      try lia; reflexivity.
Qed.

(** X3.  The options of the expiration filter are nested: going down the select
    box from "3 mois" to "2 ans" never loses a row, "Tous les AO" keeps the
    whole frame, and narrowing a frame already filtered by a wider option
    gives the frame of the narrower one. *)
Theorem expiration_options_are_nested (frame : list Row) :
  sublist (expiration_step (u "Se termine dans 3 mois") frame)
          (expiration_step (u "Se termine dans 6 mois") frame)
  /\ sublist (expiration_step (u "Se termine dans 6 mois") frame)
             (expiration_step (u "Se termine dans 1 an") frame)
  /\ sublist (expiration_step (u "Se termine dans 1 an") frame)
             (expiration_step (u "Se termine dans 1 an et demi") frame)
  /\ sublist (expiration_step (u "Se termine dans 1 an et demi") frame)
             (expiration_step (u "Se termine dans 2 ans") frame)
  /\ expiration_step (u "Tous les AO") frame = frame
  /\ expiration_step (u "Se termine dans 3 mois")
       (expiration_step (u "Se termine dans 2 ans") frame)
     = expiration_step (u "Se termine dans 3 mois") frame.
Proof.
  repeat split;
    (eapply expiration_step_le; [vm_compute; reflexivity | vm_compute; reflexivity | lia]).
Qed.

(* ===================================================================== *)
(** ** Beyond the specification: the metrics *)
(* ===================================================================== *)

Lemma filter_length_split {A} (p q : A -> bool) (l : list A) :
  (forall x, In x l -> q x = negb (p x)) ->
  (length (List.filter p l) + length (List.filter q l) = length l)%nat.
Proof.
  induction l as [|x l IH]; intros H; simpl; [reflexivity|].
  rewrite (H x (or_introl eq_refl)).
  assert (IH' := IH (fun y Hy => H y (or_intror Hy))).
  destruct (p x); simpl; lia.
Qed.

Lemma filter_length_le {A} (p q : A -> bool) (l : list A) :
  (forall x, In x l -> p x = true -> q x = true) ->
  (length (List.filter p l) <= length (List.filter q l))%nat.
Proof.
  induction l as [|x l IH]; intros H; simpl; [lia|].
  assert (IH' := IH (fun y Hy => H y (or_intror Hy))).
  destruct (p x) eqn:E; [rewrite (H x (or_introl eq_refl) E)|destruct (q x)]; simpl; lia.
Qed.

(** X4.  Whatever the selection, the metrics of a table built by
    [prepare_timeline_data] add up: every row shown is counted either as in
    progress or as finished, and a row counted as ending within three
    months is one of those in progress. *)
Theorem metrics_add_up `{R : Runtime} (today : Z) (data : list pyval) df ws
    (sel : Selection) :
  prepare_timeline_data today data = Returned df ws ->
  let filtered := filtered_df df sel in
  (active_aos filtered + finished_aos filtered = total_aos filtered)%nat
  /\ (expiring_soon filtered <= active_aos filtered)%nat
  /\ active_aos filtered
     = length (List.filter (fun row => 0 <=? Days_Left row) filtered).
Proof.
  intros H filtered. apply table_status_known in H.
  assert (Hf : Forall status_known filtered).
  { unfold filtered. rewrite filtered_df_passes. now apply filter_Forall. }
  rewrite List.Forall_forall in Hf.
  unfold active_aos, finished_aos, total_aos, expiring_soon. split; [|split].
  - apply filter_length_split. intros row Hrow.
    destruct (status_known_active row (Hf row Hrow)) as [-> ->].
    destruct (Z.ltb_spec (Days_Left row) 0), (Z.leb_spec 0 (Days_Left row)); try lia;
      reflexivity.
  - apply filter_length_le. intros row Hrow.
    destruct (status_known_active row (Hf row Hrow)) as [-> _].
    rewrite andb_true_iff, Z.geb_le, Z.leb_le. intros [_ Hge]. now apply Z.leb_le.
  - f_equal. apply (filter_ext_Forall status_known); [now apply List.Forall_forall|].
    intros row Hrow. now apply status_known_active.
Qed.

(* ===================================================================== *)
(** ** Beyond the specification: the load *)
(* ===================================================================== *)

Lemma timeline_loop_app `{R : Runtime} (today : Z) (pre rest : list pyval) tl ws :
  Forall (fun item => crashes today item = false) pre ->
  timeline_loop today (pre ++ rest) tl ws
  = timeline_loop today rest (tl ++ omap (normalized today) pre)
      (ws ++ omap (warning_of today) pre).
Proof.
  revert tl ws. induction pre as [|item pre IH]; intros tl ws Hall.
  - simpl. now rewrite !app_nil_r.
  - apply Forall_cons in Hall as [Hitem Hpre].
    cbn [app timeline_loop omap list_omap]. fold (omap (normalized today) pre).
    fold (omap (warning_of today) pre).
    rewrite normalized_process_item. unfold warning_of at 1. unfold crashes in Hitem.
    destruct (process_item today item) as [row| |w|e]; try discriminate;
      rewrite (IH _ _ Hpre); now rewrite <- ?app_assoc.
Qed.

(** X6.  Loading a list made of two parts returns exactly when loading each part
    returns, and then gives the rows of the first part followed by those of
    the second, and likewise for the warnings. *)
Theorem load_of_concatenation `{R : Runtime} (today : Z) (d1 d2 : list pyval) tl ws :
  prepare_timeline_data today (d1 ++ d2) = Returned tl ws <->
  exists tl1 ws1 tl2 ws2,
    prepare_timeline_data today d1 = Returned tl1 ws1 /\
    prepare_timeline_data today d2 = Returned tl2 ws2 /\
    tl = tl1 ++ tl2 /\ ws = ws1 ++ ws2.
Proof.
  rewrite prepare_timeline_data_Returned, Forall_app, !omap_app. split.
  - intros [[H1 H2] [-> ->]].
    exists (omap (normalized today) d1), (omap (warning_of today) d1),
           (omap (normalized today) d2), (omap (warning_of today) d2).
    repeat split; now apply prepare_timeline_data_Returned.
  - intros [tl1 [ws1 [tl2 [ws2 [H1 [H2 [-> ->]]]]]]].
    apply prepare_timeline_data_Returned in H1 as [H1 [-> ->]].
    apply prepare_timeline_data_Returned in H2 as [H2 [-> ->]]. auto.
Qed.

(** X7.  When the load returns, every record is accounted for once: it gave a
    row, or a warning, or it was passed over for a missing date.  Rows and
    warnings together are never more than the records, and an empty input
    gives an empty table and no warning. *)
Theorem load_accounts_for_every_record `{R : Runtime} (today : Z) :
  (forall data tl ws,
     prepare_timeline_data today data = Returned tl ws ->
     (length tl + length ws
      + length (List.filter (fun item => match try_item today item with
                                         | Ok None => true
                                         | _ => false
                                         end) data)
      = length data)%nat)
  /\ prepare_timeline_data today [] = Returned [] [].
Proof.
  split; [|reflexivity]. intros data tl ws H.
  apply prepare_timeline_data_Returned in H as [Hall [-> ->]].
  induction data as [|item data IH]; [reflexivity|].
  apply Forall_cons in Hall as [Hitem Hall]. specialize (IH Hall).
  cbn [omap list_omap List.filter length].
  fold (omap (normalized today) data). fold (omap (warning_of today) data).
  unfold crashes in Hitem. unfold warning_of at 1. unfold normalized at 1.
  destruct (try_item today item) as [[row|]|e] eqn:E.
  - assert (Hp : process_item today item = Appended row).
    { apply process_item_Appended, normalized_Some, E. }
    rewrite Hp. simpl. lia.
  - unfold process_item. rewrite E. simpl. lia.
  - rewrite (process_item_raise today _ _ E) in *.
    destruct (caught (exn_cls e)); [|discriminate].
    destruct (dict_get item _ _); [|discriminate]. simpl. lia.
Qed.

Lemma non_object_crashes `{R : Runtime} (today : Z) (item : pyval) :
  (forall items, item <> PDict items) ->
  exists e, exn_cls e = AttributeError /\ process_item today item = Crashed e.
Proof.
  intros Hno. unfold process_item, try_item.
  destruct item; try (eexists; split; [|reflexivity]; reflexivity).
  now destruct (Hno items).
Qed.

(** X8.  An entry of the input that is not a JSON object ends the load with an
    exception the loop does not catch: the entries after it are not read,
    and the rows and warnings gathered before it are those of the entries
    that precede it. *)
Theorem non_object_entry_aborts_load `{R : Runtime} (today : Z)
    (pre post : list pyval) (item : pyval) tl ws :
  (forall items, item <> PDict items) ->
  prepare_timeline_data today pre = Returned tl ws ->
  exists e, exn_cls e = AttributeError /\
            prepare_timeline_data today (pre ++ item :: post) = Uncaught e tl ws.
Proof.
  intros Hno Hpre. destruct (non_object_crashes today item Hno) as [e [Hcls He]].
  exists e. split; [assumption|].
  apply prepare_timeline_data_Returned in Hpre as [Hall [-> ->]].
  unfold prepare_timeline_data. rewrite (timeline_loop_app today _ _ _ _ Hall).
  cbn [timeline_loop]. now rewrite He.
Qed.

Lemma update_categories_non_string `{R : Runtime} (lots : list pyval) : forall acc,
  Exists (fun lot => forall s, lot <> PStr s) lots ->
  exists e, exn_cls e = AttributeError /\ update_categories lots acc = Raise e.
Proof.
  induction lots as [|lot rest IH]; intros acc Hex; [now apply Exists_nil in Hex|].
  simpl. destruct lot; try (eexists; split; [|reflexivity]; reflexivity).
  apply Exists_cons in Hex as [Hlot | Hrest]; [now destruct (Hlot s)|].
  simpl. now apply IH.
Qed.

(** X9.  A lot that is not a string, in a record whose dates, awardees and
    departments are read without an error, ends the load with an exception
    the loop does not catch, where every other ill-typed field gives a
    warning. *)
Theorem non_string_lot_aborts_load `{R : Runtime} (today : Z) (item : pyval)
    (v1 v2 titulaire code_departement : pyval) (start_date end_date : Z)
    (names : pystr) (lots post : list pyval) :
  getitem item (u "date_debut") = Ok v1 -> to_datetime v1 = Ok (Some start_date) ->
  getitem item (u "date_fin") = Ok v2 -> to_datetime v2 = Ok (Some end_date) ->
  getitem item (u "titulaire") = Ok titulaire ->
  match titulaire with
  | PList l => str_join (u ", ") l
  | v => Ok (py_str v)
  end = Ok names ->
  getitem item (u "code_departement") = Ok code_departement ->
  dict_get item (u "LOTS") (PList []) = Ok (PList lots) ->
  Exists (fun lot => forall s, lot <> PStr s) lots ->
  exists e, exn_cls e = AttributeError /\
            prepare_timeline_data today (item :: post) = Uncaught e [] [].
Proof.
  intros H1 H2 H3 H4 H5 H6 H7 H8 Hex.
  destruct (update_categories_non_string lots ∅ Hex) as [e [Hcls He]].
  exists e. split; [assumption|].
  unfold prepare_timeline_data. cbn [timeline_loop].
  assert (E : try_item today item = Raise e).
  { unfold try_item. rewrite H1; cbn [bind]. rewrite H2; cbn [bind].
    rewrite H3; cbn [bind]. rewrite H4; cbn [bind]. cbv zeta.
    rewrite H5; cbn [bind]. rewrite H6; cbn [bind]. rewrite H7; cbn [bind].
    rewrite H8; cbn [bind py_iter]. now rewrite He. }
  rewrite (process_item_raise today _ _ E), Hcls. reflexivity.
Qed.

Lemma required_key_read `{R : Runtime} (today : Z) (item : pyval) (row : Row) (key : pystr) :
  In key [u "date_debut"; u "date_fin"; u "titulaire"; u "code_departement";
          u "objet"; u "nomacheteur"] ->
  appended today item row -> exists v, getitem item key = Ok v.
Proof.
  intros Hkey [[v1 [H1 _]] [v2 [H2 _]] _ _ [v3 [H3 _]] [v4 [H4 _]] _ _
               [v5 [t [H5 _]]] H6 _].
  repeat (destruct Hkey as [<- | Hkey]; [eauto|]). contradiction.
Qed.

(** X10.  A record lacking one of the keys date_debut, date_fin, titulaire,
    code_departement, objet and nomacheteur is never given a row; when the
    key lacking is date_debut, the record gives the warning that names this
    key after its [idweb], whatever its other fields are. *)
Theorem record_without_required_key `{R : Runtime} (today : Z)
    (items : list (list N * pyval)) :
  (forall key,
     In key [u "date_debut"; u "date_fin"; u "titulaire"; u "code_departement";
             u "objet"; u "nomacheteur"] ->
     assoc key items = None -> normalized today (PDict items) = None)
  /\ (assoc (u "date_debut") items = None ->
      process_item today (PDict items)
      = Warned (u "Erreur avec l'entrée: "
                ++ py_str (default (PStr (u "ID inconnu")) (assoc (u "idweb") items))
                ++ u " - 'date_debut'")).
Proof.
  split.
  - intros key Hkey Hnone.
    destruct (normalized today (PDict items)) as [row|] eqn:E; [|reflexivity].
    apply normalized_Some, try_item_appended in E.
    destruct (required_key_read today _ _ key Hkey E) as [v Hv].
    simpl in Hv. now rewrite Hnone in Hv.
  - intros Hnone. unfold process_item, try_item. cbn [getitem]. rewrite Hnone.
    cbn [bind exn_cls caught dict_get]. now destruct (assoc (u "idweb") items).
Qed.

(** X11.  The keys LOTS and url_avis may be absent: the record then has no lots,
    no categories, an empty URL.  A LOTS that is present but null is not
    taken as absent: the record is given no row. *)
Theorem optional_keys_default `{R : Runtime} (today : Z)
    (items : list (list N * pyval)) :
  (forall row,
     normalized today (PDict items) = Some row ->
     (assoc (u "LOTS") items = None -> Lots row = PList [] /\ Categories row = []) /\
     (assoc (u "url_avis") items = None -> URL row = PStr empty_str))
  /\ (assoc (u "LOTS") items = Some PNone -> normalized today (PDict items) = None).
Proof.
  split.
  - intros row E. apply normalized_Some, try_item_appended in E.
    destruct E as [_ _ _ _ _ _ Hlots [lot_seq [cats [Hiter [Hup Hcats]]]] _ _ Hurl].
    split.
    + intros Hnone. simpl in Hlots. rewrite Hnone in Hlots. injection Hlots as Hlots.
      rewrite <- Hlots in *. split; [reflexivity|].
      simpl in Hiter. injection Hiter as <-. simpl in Hup. injection Hup as <-.
      rewrite Hcats. apply elements_empty.
    + intros Hnone. simpl in Hurl. rewrite Hnone in Hurl. now injection Hurl.
  - intros Hnull.
    destruct (normalized today (PDict items)) as [row|] eqn:E; [|reflexivity].
    apply normalized_Some, try_item_appended in E.
    destruct E as [_ _ _ _ _ _ Hlots [lot_seq [cats [Hiter _]]] _ _ _].
    simpl in Hlots. rewrite Hnull in Hlots. injection Hlots as Hlots.
    rewrite <- Hlots in Hiter. discriminate.
Qed.

(** X12.  The title of a row is never longer than 94 characters: the status
    between brackets, a space, and at most 83 characters of the object. *)
Theorem title_is_bounded `{R : Runtime} (today : Z) (item : pyval) (row : Row) :
  normalized today item = Some row -> (length (Task row) <= 94)%nat.
Proof.
  intros H. apply normalized_Some, try_item_appended in H.
  destruct H as [_ _ _ Hst _ _ _ _ [v [text [_ [Htext ->]]]] _ _].
  apply objet_text_str in Htext as [objet [_ ->]].
  rewrite !length_app, Hst.
  assert (Ht : (length (if (80 <? length objet)%nat
                        then firstn 80 objet ++ u "..." else objet) <= 83)%nat).
  { destruct (Nat.ltb_spec 80 (length objet)) as [Hlt | Hle].
    - rewrite length_app, length_take. change (length (u "...")) with 3%nat. lia.
    - lia. }
  destruct (Days_Left row <? 0).
  - change (length (u "[")) with 1%nat. change (length (u "Terminé")) with 7%nat.
    change (length (u "] ")) with 2%nat. lia.
  - change (length (u "[")) with 1%nat. change (length (u "En cours")) with 8%nat.
    change (length (u "] ")) with 2%nat. lia.
Qed.

(* ===================================================================== *)
(** ** Beyond the specification: lots, categories and awardees of a row *)
(* ===================================================================== *)

Lemma update_categories_strings `{R : Runtime} (lots : list pyval) : forall acc cats,
  update_categories lots acc = Ok cats ->
  exists names,
    lots = List.map PStr names /\
    forall c, c ∈ cats <-> c ∈ acc \/ exists s, In s names /\ In c (categorize_lot s).
Proof.
  induction lots as [|lot rest IH]; intros acc cats H; simpl in H.
  - injection H as <-. exists []. split; [reflexivity|].
    intros c. split; [now left | now intros [Hc | [s [[] _]]]].
  - bind_inv H. destruct lot; try discriminate. injection E as <-.
    destruct (IH _ _ H) as [names [-> Hcats]]. exists (s :: names).
    split; [reflexivity|]. intros c. rewrite Hcats, elem_of_union, elem_of_list_to_set.
    rewrite list_elem_of_In. split.
    + intros [[Hc | Hc] | [s' [Hs' Hc]]]; [now left | right | right].
      * exists s. split; [now left | assumption].
      * exists s'. split; [now right | assumption].
    + intros [Hc | [s' [[<- | Hs'] Hc]]]; [now left; left | now left; right |].
      right. now exists s'.
Qed.

Lemma traverse_strings `{R : Runtime} (names : list pystr) :
  traverse (fun lot => let* categories := categorize_lot_val lot in Ok (lot, categories))
           (List.map PStr names)
  = Ok (List.map (fun s => (PStr s, categorize_lot s)) names).
Proof.
  induction names as [|s names IH]; [reflexivity|].
  cbn [List.map traverse categorize_lot_val bind]. now rewrite IH.
Qed.

Lemma lots_of_row `{R : Runtime} (today : Z) (item : pyval) (row : Row) :
  normalized today item = Some row ->
  exists names : list pystr,
    py_iter (Lots row) = Ok (List.map PStr names) /\
    show_lots row = Ok (List.map (fun s => (PStr s, categorize_lot s)) names) /\
    forall c, In c (Categories row) <->
              exists s, In s names /\ In c (categorize_lot s).
Proof.
  intros H. apply normalized_Some, try_item_appended in H.
  destruct H as [_ _ _ _ _ _ _ [lot_seq [cats [Hiter [Hup Hcats]]]] _ _ _].
  destruct (update_categories_strings _ _ _ Hup) as [names [-> Hc]].
  exists names. split; [assumption | split].
  - unfold show_lots. rewrite Hiter. cbn [bind]. apply traverse_strings.
  - intros c. rewrite Hcats, <- list_elem_of_In, elem_of_elements, Hc.
    split; [intros [Hin | Hin]; [now apply not_elem_of_empty in Hin | assumption] | auto].
Qed.

(** X13.  In the detail view of a row of the table, every lot is a string, the
    view never fails on it, and the categories printed under the lots are,
    taken together, the [Categories] of the row. *)
Theorem detail_view_agrees_with_categories `{R : Runtime}
    (today : Z) (item : pyval) (row : Row) :
  normalized today item = Some row ->
  exists names : list pystr,
    py_iter (Lots row) = Ok (List.map PStr names) /\
    show_lots row = Ok (List.map (fun s => (PStr s, categorize_lot s)) names) /\
    forall c, In c (Categories row) <->
              exists s, In s names /\ In c (categorize_lot s).
Proof. apply lots_of_row. Qed.

Lemma map_filter_sublist {A B} (f : A -> B) (p : A -> bool) (l : list A) :
  sublist (List.map f (List.filter p l)) (List.map f l).
Proof.
  induction l as [|x l IH]; simpl; [constructor|].
  destruct (p x); simpl; now constructor.
Qed.

(** X14.  The categories of a lot come in the order of the taxonomy, whatever the
    order in which their keywords occur in the name. *)
Theorem categories_follow_taxonomy_order `{R : Runtime} (lot_name : pystr) :
  sublist (categorize_lot lot_name) category_labels.
Proof. rewrite categorize_lot_filter. apply map_filter_sublist. Qed.

Lemma split_app_sep (sep : N) (a b : pystr) :
  ~ In sep a -> split sep (a ++ sep :: b) = a :: split sep b.
Proof.
  induction a as [|c a IH]; intros Hno.
  - simpl. now rewrite N.eqb_refl.
  - simpl. destruct (N.eqb_spec c sep) as [-> | Hne]; [destruct Hno; now left|].
    rewrite IH; [reflexivity|]. intros Hin. apply Hno. now right.
Qed.

Lemma split_no_sep (sep : N) (a : pystr) : ~ In sep a -> split sep a = [a].
Proof.
  induction a as [|c a IH]; intros Hno; [reflexivity|].
  simpl. destruct (N.eqb_spec c sep) as [-> | Hne]; [destruct Hno; now left|].
  rewrite IH; [reflexivity|]. intros Hin. apply Hno. now right.
Qed.

Lemma strip_after_space (s : pystr) : strip (32%N :: s) = strip s.
Proof. reflexivity. Qed.

Lemma split_join (name : pystr) (names : list pystr) :
  Forall clean_name (name :: names) ->
  split 44%N (join (u ", ") (name :: names))
  = name :: List.map (fun n => 32%N :: n) names.
Proof.
  revert name. induction names as [|n names IH]; intros name Hall.
  - apply Forall_cons in Hall as [[Hno _] _]. now apply split_no_sep.
  - apply Forall_cons in Hall as [[Hno _] Hall].
    change (join (u ", ") (name :: n :: names))
      with (name ++ 44%N :: 32%N :: join (u ", ") (n :: names)).
    rewrite (split_app_sep _ _ _ Hno). f_equal.
    cbn [split]. change (32 =? 44)%N with false. cbv iota.
    now rewrite (IH n Hall).
Qed.

Lemma str_items_strings (names : list pystr) : forall i,
  str_items i (List.map PStr names) = Ok names.
Proof.
  induction names as [|n names IH]; intros i; [reflexivity|].
  simpl. now rewrite IH.
Qed.

Lemma awardee_pieces (names : list pystr) :
  names <> [] -> Forall clean_name names ->
  List.map strip (split 44%N (join (u ", ") names)) = names.
Proof.
  destruct names as [|name names]; [congruence|]. intros _ Hall.
  rewrite (split_join _ _ Hall). apply Forall_cons in Hall as [[_ Hname] Hall].
  cbn [List.map]. rewrite Hname. f_equal.
  induction Hall as [|n names [_ Hn] _ IH]; [reflexivity|].
  cbn [List.map]. now rewrite strip_after_space, Hn, IH.
Qed.

(** X15.  Joining awardee names with ", " and then splitting at the commas and
    stripping, as the awardee filter does, gives the names back when none
    of them holds a comma or has white space around it.  For a record whose
    [titulaire] is a list of such names, the awardee filter lets the row
    through exactly when one of these names is selected. *)
Theorem awardee_names_survive_the_join `{R : Runtime} :
  (forall names : list pystr,
     names <> [] -> Forall clean_name names ->
     List.map strip (split 44%N (join (u ", ") names)) = names)
  /\ (forall today item row (names selected : list pystr),
       normalized today item = Some row ->
       getitem item (u "titulaire") = Ok (PList (List.map PStr names)) ->
       names <> [] -> Forall clean_name names ->
       (titulaire_mask selected row = true <->
        exists name, In name names /\ In name selected)).
Proof.
  split; [exact awardee_pieces|].
  intros today item row names selected H Ht Hne Hclean.
  apply normalized_Some, try_item_appended in H.
  destruct H as [_ _ _ _ [v [Hv Hj]] _ _ _ _ _ _].
  rewrite Ht in Hv. injection Hv as <-.
  unfold str_join in Hj. rewrite str_items_strings in Hj. cbn [bind] in Hj.
  injection Hj as Hj. unfold titulaire_mask. rewrite <- Hj, existsb_exists.
  pose proof (awardee_pieces names Hne Hclean) as Hp. split.
  - intros [t [Hin Hsel]]. exists (strip t).
    split; [rewrite <- Hp; now apply in_map | now apply str_in_In].
  - intros [name [Hin Hsel]]. rewrite <- Hp in Hin.
    apply in_map_iff in Hin as [t [<- Hin]].
    exists t. split; [assumption | now apply str_in_In].
Qed.

(* ===================================================================== *)
(** ** Beyond the specification: the option lists of the widgets *)
(* ===================================================================== *)

Lemma str_ltb_irrefl (a : pystr) : str_ltb a a = false.
Proof.
  induction a as [|x a IH]; [reflexivity|].
  simpl. now rewrite N.ltb_irrefl, N.eqb_refl, IH.
Qed.

Lemma str_ltb_trans (a : pystr) : forall b c,
  str_ltb a b = true -> str_ltb b c = true -> str_ltb a c = true.
Proof.
  induction a as [|x a IH]; intros [|y b] [|z c]; simpl; try discriminate; auto.
  rewrite !orb_true_iff, !andb_true_iff, !N.ltb_lt, !N.eqb_eq.
  intros [H1 | [-> H1]] [H2 | [-> H2]]; [left; lia | now left | now left |].
  right. split; [reflexivity | now apply (IH b c)].
Qed.

Lemma str_ltb_total (a : pystr) : forall b,
  str_ltb a b = false -> str_ltb b a = false -> a = b.
Proof.
  induction a as [|x a IH]; intros [|y b]; simpl; try discriminate; auto.
  rewrite !orb_false_iff, !andb_false_iff, !N.ltb_ge, !N.eqb_neq.
  intros [H1 H1'] [H2 H2']. assert (x = y) by lia. subst y.
  f_equal. apply IH; [now destruct H1' | now destruct H2'].
Qed.

Lemma insort_In (x y : pystr) (l : list pystr) :
  In y (insort x l) <-> y = x \/ In y l.
Proof.
  induction l as [|z l IH]; simpl; [intuition|].
  destruct (str_ltb z x); simpl; rewrite ?IH; intuition.
Qed.

Lemma sorted_In (y : pystr) (l : list pystr) : In y (sorted l) <-> In y l.
Proof.
  induction l as [|x l IH]; simpl; [reflexivity|].
  rewrite insort_In, IH. intuition.
Qed.

Lemma insort_sorted (x : pystr) (l : list pystr) :
  StronglySorted str_lt l -> ~ In x l -> StronglySorted str_lt (insort x l).
Proof.
  induction 1 as [|z l Hl IH Hz]; intros Hx; simpl; [repeat constructor|].
  destruct (str_ltb z x) eqn:E.
  - constructor; [apply IH; intros Hin; apply Hx; now right|].
    apply List.Forall_forall. intros y Hy. apply insort_In in Hy as [-> | Hy];
      [exact E|]. rewrite List.Forall_forall in Hz. now apply Hz.
  - assert (Hxz : str_lt x z).
    { unfold str_lt. destruct (str_ltb x z) eqn:E'; [reflexivity|].
      destruct Hx. left. symmetry. now apply str_ltb_total. }
    constructor; [now constructor|]. constructor; [assumption|].
    rewrite List.Forall_forall in *. intros y Hy.
    eapply str_ltb_trans; [exact Hxz | now apply Hz].
Qed.

Lemma sorted_StronglySorted (l : list pystr) :
  NoDup l -> StronglySorted str_lt (sorted l).
Proof.
  induction 1 as [|x l Hx Hl IH]; simpl; [constructor|].
  apply insort_sorted; [assumption|]. rewrite sorted_In, <- list_elem_of_In. exact Hx.
Qed.

Lemma sorted_set_spec (l : list pystr) :
  StronglySorted str_lt (sorted_set l) /\ forall x, In x (sorted_set l) <-> In x l.
Proof.
  unfold sorted_set. split.
  - apply sorted_StronglySorted, NoDup_elements.
  - intros x. now rewrite sorted_In, <- !list_elem_of_In, elem_of_elements,
      elem_of_list_to_set.
Qed.

Lemma option_membership (df : list Row) :
  (forall t, In t (titulaires df) <->
             exists row piece, In row df /\ In piece (split 44%N (Titulaire row)) /\
                               strip piece = t)
  /\ (forall c, In c (all_categories df) <->
                exists row, In row df /\ In c (Categories row)).
Proof.
  unfold titulaires, all_categories. split.
  - intros t. rewrite (proj2 (sorted_set_spec _)), in_flat_map. split.
    + intros [row [Hrow Ht]]. apply in_map_iff in Ht as [piece [Hp Hin]].
      now exists row, piece.
    + intros [row [piece [Hrow [Hin Hp]]]]. exists row. split; [assumption|].
      apply in_map_iff. now exists piece.
  - intros c. rewrite (proj2 (sorted_set_spec _)), in_flat_map. reflexivity.
Qed.

(** X16.  The options of the awardee widget and of the category widget are in
    strictly increasing order, hence without repetition.  An awardee is
    offered exactly when it is a stripped piece, between commas, of the
    [Titulaire] of some row, and a category exactly when some row has it. *)
Theorem option_lists_are_sorted_sets (df : list Row) :
  StronglySorted str_lt (titulaires df)
  /\ (forall t, In t (titulaires df) <->
                exists row piece, In row df /\ In piece (split 44%N (Titulaire row)) /\
                                  strip piece = t)
  /\ StronglySorted str_lt (all_categories df)
  /\ (forall c, In c (all_categories df) <->
                exists row, In row df /\ In c (Categories row)).
Proof.
  destruct (option_membership df) as [Ht Hc].
  split; [apply sorted_set_spec | split; [exact Ht | split; [apply sorted_set_spec | exact Hc]]].
Qed.

Lemma filtered_only_titulaires (df : list Row) (selected : list pystr) :
  filtered_df df (only_titulaires selected)
  = List.filter (dimension selected (titulaire_mask selected)) df.
Proof.
  rewrite filtered_df_passes. apply List.filter_ext. intros row.
  unfold passes, only_titulaires; cbn [selected_acheteurs selected_titulaires
    selected_departments expiration_filter status_filter selected_categories dimension].
  change (expiration_mask (u "Tous les AO") row) with true.
  now rewrite !andb_true_r.
Qed.

Lemma filtered_only_categories (df : list Row) (selected : list pystr) :
  filtered_df df (only_categories selected)
  = List.filter (dimension selected (categories_mask selected)) df.
Proof.
  rewrite filtered_df_passes. apply List.filter_ext. intros row.
  unfold passes, only_categories; cbn [selected_acheteurs selected_titulaires
    selected_departments expiration_filter status_filter selected_categories dimension].
  change (expiration_mask (u "Tous les AO") row) with true.
  reflexivity.
Qed.

Lemma filter_nonempty {A} (p : A -> bool) (l : list A) (x : A) :
  In x l -> p x = true -> List.filter p l <> [].
Proof.
  intros Hin Hp E. assert (H : In x (List.filter p l)) by now apply filter_In.
  now rewrite E in H.
Qed.

(** X17.  No option of the awardee widget or of the category widget is offered in
    vain: selected alone, with the other widgets emptied, it keeps at least
    one row of the table. *)
Theorem offered_options_match_a_row (df : list Row) :
  (forall t, In t (titulaires df) -> filtered_df df (only_titulaires [t]) <> [])
  /\ (forall c, In c (all_categories df) -> filtered_df df (only_categories [c]) <> []).
Proof.
  destruct (option_membership df) as [Ht Hc]. split.
  - intros t Hin. apply Ht in Hin as [row [piece [Hrow [Hp Hs]]]].
    rewrite filtered_only_titulaires. apply (filter_nonempty _ _ row Hrow).
    cbn [dimension]. unfold titulaire_mask. apply existsb_exists.
    exists piece. split; [assumption|]. apply str_in_In. now left.
  - intros c Hin. apply Hc in Hin as [row [Hrow Hcat]].
    rewrite filtered_only_categories. apply (filter_nonempty _ _ row Hrow).
    cbn [dimension]. unfold categories_mask. apply existsb_exists.
    exists c. split; [assumption|]. apply str_in_In. now left.
Qed.

Lemma split_nonempty (sep : N) (s : pystr) : split sep s <> [].
Proof.
  destruct s as [|c s]; simpl; [discriminate|].
  destruct (c =? sep)%N; [discriminate|]. now destruct (split sep s).
Qed.

Lemma dimension_nonempty {A} (selection : list A) (mask : Row -> bool) (row : Row) :
  selection <> [] -> dimension selection mask row = mask row.
Proof. destruct selection; [congruence | reflexivity]. Qed.

(** X18.  Selecting every awardee offered keeps the whole table.  Selecting every
    category offered does not: it keeps the rows that have a category and
    drops the others. *)
Theorem selecting_every_option (df : list Row) :
  filtered_df df (only_titulaires (titulaires df)) = df
  /\ (all_categories df <> [] ->
      filtered_df df (only_categories (all_categories df))
      = List.filter (fun row => match Categories row with
                                | [] => false
                                | _ :: _ => true
                                end) df).
Proof.
  destruct (option_membership df) as [Ht Hc]. split.
  - rewrite filtered_only_titulaires.
    transitivity (List.filter (fun _ => true) df); [|apply filter_all].
    apply List.filter_ext_in. intros row Hrow.
    apply dimension_spec. right. unfold titulaire_mask. apply existsb_exists.
    destruct (split 44%N (Titulaire row)) as [|piece pieces] eqn:Es;
      [now apply split_nonempty in Es|].
    exists piece. split; [now left|]. apply str_in_In, Ht.
    exists row, piece. rewrite Es. repeat split; [assumption | now left].
  - intros Hne. rewrite filtered_only_categories.
    apply List.filter_ext_in. intros row Hrow.
    rewrite (dimension_nonempty _ _ _ Hne). unfold categories_mask.
    destruct (Categories row) as [|c cats] eqn:Ec; [reflexivity|].
    apply existsb_exists. exists c. split; [now left|]. apply str_in_In, Hc.
    exists row. rewrite Ec. split; [assumption | now left].
Qed.

(* ===================================================================== *)
(** ** Beyond the specification: the anchors of the detail view *)
(* ===================================================================== *)

Lemma iterrows_from (p : Row -> bool) (l : list Row) : forall n,
  List.map snd (List.filter (fun ir => p (snd ir)) (combine (seq n (length l)) l))
  = List.filter p l.
Proof.
  induction l as [|row l IH]; intros n; [reflexivity|].
  simpl. destruct (p row); simpl; now rewrite IH.
Qed.

Lemma labels_from (l : list Row) : forall n idx row,
  In (idx, row) (combine (seq n (length l)) l) ->
  (n <= idx)%nat /\ nth_error l (idx - n) = Some row.
Proof.
  induction l as [|r l IH]; intros n idx row Hin; [contradiction|].
  simpl in Hin. destruct Hin as [Hin | Hin].
  - injection Hin as <- <-. split; [lia|]. now rewrite Nat.sub_diag.
  - apply IH in Hin as [Hle Hnth]. split; [lia|].
    replace (idx - n)%nat with (S (idx - S n)) by lia. exact Hnth.
Qed.

Lemma detail_anchors_snoc (rows : list (nat * Row)) (ir : nat * Row) :
  detail_anchors (rows ++ [ir])
  = <[Task (snd ir) := anchor_id (fst ir)]> (detail_anchors rows).
Proof. unfold detail_anchors. now rewrite fold_left_app. Qed.

Lemma detail_anchors_lookup (rows : list (nat * Row)) (task : pystr) :
  (detail_anchors rows !! task = None /\
   Forall (fun ir => Task (snd ir) <> task) rows)
  \/ (exists idx, detail_anchors rows !! task = Some (anchor_id idx) /\
                  last_with_title rows task idx).
Proof.
  induction rows as [|[idx row] rows IH] using rev_ind.
  - left. split; [apply lookup_empty | constructor].
  - rewrite detail_anchors_snoc. cbn [fst snd].
    destruct (decide (Task row = task)) as [E | Hne].
    + right. exists idx. rewrite E, lookup_insert_eq. split; [reflexivity|].
      exists rows, row, []. repeat split; [assumption | constructor].
    + rewrite lookup_insert_ne by assumption.
      destruct IH as [[Hnone Hall] | [last [Hsome [pre [r [post [-> [Hr Hpost]]]]]]]].
      * left. split; [assumption|]. apply Forall_app. split; [assumption|].
        now repeat constructor.
      * right. exists last. split; [assumption|].
        exists pre, r, (post ++ [(idx, row)]). rewrite <- app_assoc. repeat split;
          [assumption|]. apply Forall_app. split; [assumption | now repeat constructor].
Qed.

Lemma same_title_same_entry (rows : list (nat * Row)) (x y : nat * Row) :
  NoDup (List.map (fun ir => Task (snd ir)) rows) ->
  In x rows -> In y rows -> Task (snd x) = Task (snd y) -> x = y.
Proof.
  induction rows as [|z rows IH]; intros Hnd Hx Hy E; [contradiction|].
  simpl in Hnd. apply NoDup_cons in Hnd as [Hz Hnd]. rewrite list_elem_of_In in Hz.
  destruct Hx as [-> | Hx], Hy as [-> | Hy]; auto.
  - destruct Hz. rewrite E. now apply (in_map (fun ir => Task (snd ir))).
  - destruct Hz. rewrite <- E. now apply (in_map (fun ir => Task (snd ir))).
Qed.

(** X19.  In the detail view the rows are those of the filtered frame, each with
    its position in the table as label.  The anchor written before a row is
    always found in the dictionary, and it is the anchor of the last row of
    the frame that has the same title; it is the row's own anchor when the
    titles of the frame are pairwise different. *)
Theorem detail_anchor_is_last_with_same_title (df : list Row) (sel : Selection) :
  List.map snd (iterrows df sel) = filtered_df df sel
  /\ (forall idx row, In (idx, row) (iterrows df sel) -> nth_error df idx = Some row)
  /\ (forall idx row,
       In (idx, row) (iterrows df sel) ->
       exists last,
         anchor_of (detail_anchors (iterrows df sel)) (Task row) = Ok (anchor_id last) /\
         last_with_title (iterrows df sel) (Task row) last)
  /\ (NoDup (List.map Task (filtered_df df sel)) ->
      forall idx row,
        In (idx, row) (iterrows df sel) ->
        anchor_of (detail_anchors (iterrows df sel)) (Task row) = Ok (anchor_id idx)).
Proof.
  assert (Hmap : List.map snd (iterrows df sel) = filtered_df df sel).
  { rewrite filtered_df_passes. apply iterrows_from. }
  assert (Hlast : forall idx row,
       In (idx, row) (iterrows df sel) ->
       exists last,
         anchor_of (detail_anchors (iterrows df sel)) (Task row) = Ok (anchor_id last) /\
         last_with_title (iterrows df sel) (Task row) last).
  { intros idx row Hin.
    destruct (detail_anchors_lookup (iterrows df sel) (Task row))
      as [[_ Hall] | [last [Hsome Hl]]].
    - rewrite List.Forall_forall in Hall. now destruct (Hall _ Hin).
    - exists last. unfold anchor_of. now rewrite Hsome. }
  split; [exact Hmap | split; [|split; [exact Hlast|]]].
  - intros idx row Hin. apply filter_In in Hin as [Hin _].
    apply labels_from in Hin as [_ Hnth]. now rewrite Nat.sub_0_r in Hnth.
  - intros Hnd idx row Hin. destruct (Hlast idx row Hin) as [last [Ha Hl]].
    rewrite Ha. destruct Hl as [pre [r [post [Hrows [Hr _]]]]].
    assert (Hin' : In (last, r) (iterrows df sel)).
    { rewrite Hrows. apply in_or_app. right. now left. }
    rewrite <- Hmap, List.map_map in Hnd.
    assert (E := same_title_same_entry _ (idx, row) (last, r) Hnd Hin Hin'
                   (eq_sym Hr)).
    now injection E as -> _.
Qed.

(* ===================================================================== *)
(** ** Beyond the specification: option lists and details of a table *)
(* ===================================================================== *)

Lemma all_strings {A} (f : A -> pyval) (l : list A) :
  Forall (fun x => exists s, f x = PStr s) l ->
  exists names, List.map f l = List.map PStr names.
Proof.
  induction 1 as [|x l [s Hs] _ [names IH]]; [now exists []|].
  exists (s :: names). simpl. now rewrite Hs, IH.
Qed.

Lemma flat_strings (df : list Row) :
  Forall (fun row => exists ds, Departments row = List.map PStr ds) df ->
  exists names, flat_map Departments df = List.map PStr names.
Proof.
  induction 1 as [|row l [ds Hds] _ [names IH]]; [now exists []|].
  exists (ds ++ names). simpl. now rewrite Hds, IH, List.map_app.
Qed.

Lemma traverse_Ok {A B} (f : A -> result B) (g : B -> A) (l : list A) :
  (forall x, In x l -> exists y, f x = Ok y /\ g y = x) ->
  exists ys, traverse f l = Ok ys /\ List.map g ys = l.
Proof.
  induction l as [|x l IH]; intros H; [now exists []|].
  destruct (H x (or_introl eq_refl)) as [y [Hy Hg]].
  destruct (IH (fun z Hz => H z (or_intror Hz))) as [ys [Hys Hmap]].
  exists (y :: ys). simpl. rewrite Hy, Hys. simpl. now rewrite Hg, Hmap.
Qed.

Lemma table_rows `{R : Runtime} (today : Z) (data : list pyval) df ws :
  prepare_timeline_data today data = Returned df ws ->
  forall row, In row df -> exists item, In item data /\ normalized today item = Some row.
Proof.
  intros H row Hrow. apply prepare_timeline_data_Returned in H as [_ [-> _]].
  apply list_elem_of_In, list_elem_of_omap in Hrow as [item [Hin Hrow]].
  exists item. split; [now apply list_elem_of_In | assumption].
Qed.

Lemma widgets_of_table `{R : Runtime} py_sorted_set (today : Z) (data : list pyval) df ws :
  sorts_strings py_sorted_set -> buyers_are_strings today data ->
  prepare_timeline_data today data = Returned df ws ->
  exists options,
    make_widgets py_sorted_set df = Ok options /\
    opt_titulaires options = titulaires df /\
    opt_categories options = all_categories df.
Proof.
  intros Hsort Hbuy H. pose proof (table_rows today data df ws H) as Hrows.
  assert (H1 : exists names, List.map Resource df = List.map PStr names).
  { apply all_strings, List.Forall_forall. intros row Hrow.
    destruct (Hrows row Hrow) as [item [Hin Hn]]. exact (Hbuy item row Hin Hn). }
  assert (H2 : exists names, flat_map Departments df = List.map PStr names).
  { apply flat_strings, List.Forall_forall. intros row Hrow.
    destruct (Hrows row Hrow) as [item [_ Hn]].
    apply normalized_Some, try_item_appended in Hn.
    destruct Hn as [_ _ _ _ _ [v [_ [_ Hj]]] _ _ _ _ _].
    apply str_join_map in Hj as [ds [Hds _]]. now exists ds. }
  destruct H1 as [buyers H1], H2 as [depts H2].
  unfold make_widgets. rewrite H1, H2, !Hsort. cbn [bind]. eauto.
Qed.

(* ===================================================================== *)
(** ** The additional properties on examples *)
(* ===================================================================== *)

Lemma sample_load :
  prepare_timeline_data afternoon sample_data = Returned sample_table sample_warnings.
Proof. run. Qed.

Lemma default_selection_shows_active_witness :
  filtered_df sample_table default_selection
  = List.filter (fun row => 0 <=? Days_Left row) sample_table.
Proof.
  exact (proj2 (default_selection_shows_active afternoon sample_data)
           sample_table sample_warnings sample_load).
Defined.

Lemma metrics_add_up_witness :
  (active_aos (filtered_df sample_table default_selection)
   + finished_aos (filtered_df sample_table default_selection)
   = total_aos (filtered_df sample_table default_selection))%nat.
Proof.
  exact (proj1 (metrics_add_up afternoon sample_data sample_table sample_warnings
                  default_selection sample_load)).
Defined.

Lemma load_of_concatenation_witness :
  exists tl1 ws1 tl2 ws2,
    prepare_timeline_data afternoon [poulet_bio; undated] = Returned tl1 ws1 /\
    prepare_timeline_data afternoon [untitled; two_awardees] = Returned tl2 ws2 /\
    sample_table = tl1 ++ tl2 /\ sample_warnings = ws1 ++ ws2.
Proof.
  exact (proj1 (load_of_concatenation afternoon [poulet_bio; undated]
                  [untitled; two_awardees] sample_table sample_warnings) sample_load).
Defined.

Lemma load_accounts_for_every_record_witness :
  (length sample_table + length sample_warnings
   + length (List.filter (fun item => match try_item afternoon item with
                                      | Ok None => true
                                      | _ => false
                                      end) sample_data)
   = length sample_data)%nat.
Proof.
  exact (proj1 (load_accounts_for_every_record afternoon) sample_data sample_table
           sample_warnings sample_load).
Defined.

Lemma non_object_entry_aborts_load_witness :
  exists e, exn_cls e = AttributeError /\
    prepare_timeline_data afternoon (sample_data ++ PStr (u "oops") :: [poulet_bio])
    = Uncaught e sample_table sample_warnings.
Proof.
  apply non_object_entry_aborts_load; [discriminate | exact sample_load].
Defined.

Lemma non_string_lot_aborts_load_witness :
  exists e, exn_cls e = AttributeError /\
    prepare_timeline_data afternoon (numbered_lot :: [poulet_bio]) = Uncaught e [] [].
Proof.
  apply (non_string_lot_aborts_load afternoon numbered_lot
           (PStr (u "2024-01-01")) (PStr (u "2024-12-31")) (PStr (u "Co B"))
           (PStr (u "31")) (midnight 2024 1 1) (midnight 2024 12 31) (u "Co B")
           [PStr (u "Pain"); PInt 3] [poulet_bio]); try run.
  apply Exists_cons. right. apply Exists_cons. left. discriminate.
Defined.

Lemma record_without_required_key_witness :
  normalized afternoon untitled = None.
Proof.
  apply (proj1 (record_without_required_key afternoon
                  [ (u "date_debut", PStr (u "2024-01-01"));
                    (u "date_fin", PStr (u "2024-12-31"));
                    (u "nomacheteur", PStr (u "Ville Z"));
                    (u "titulaire", PStr (u "Co B"));
                    (u "code_departement", PStr (u "31")) ]) (u "objet")).
  - vm_compute. tauto.
  - run.
Defined.

Lemma optional_keys_default_witness :
  exists row,
    normalized afternoon (PDict bare_items) = Some row /\
    (Lots row = PList [] /\ Categories row = []) /\ URL row = PStr empty_str.
Proof.
  assert (H : exists row, normalized afternoon (PDict bare_items) = Some row).
  { eexists. run. }
  destruct H as [row H]. exists row. split; [exact H|].
  destruct (proj1 (optional_keys_default afternoon bare_items) row H) as [Hlots Hurl].
  split; [apply Hlots | apply Hurl]; run.
Defined.

Lemma title_is_bounded_witness :
  exists row, normalized afternoon poulet_bio = Some row /\ (length (Task row) <= 94)%nat.
Proof.
  eexists. split; [run|].
  refine (title_is_bounded afternoon poulet_bio _ _). run.
Defined.

Lemma detail_view_agrees_with_categories_witness :
  exists row names,
    normalized afternoon two_awardees = Some row /\
    py_iter (Lots row) = Ok (List.map PStr names) /\
    show_lots row = Ok (List.map (fun s => (PStr s, categorize_lot s)) names) /\
    forall c, In c (Categories row) <->
              exists s, In s names /\ In c (categorize_lot s).
Proof.
  destruct (normalized afternoon two_awardees) as [row|] eqn:E;
    [|vm_compute in E; discriminate].
  destruct (detail_view_agrees_with_categories afternoon two_awardees row E)
    as [names H].
  exists row, names. split; [reflexivity | exact H].
Defined.

Lemma awardee_names_survive_the_join_witness :
  List.map strip (split 44%N (join (u ", ") [u "Co A"; u "Co B"])) = [u "Co A"; u "Co B"].
Proof.
  apply (proj1 awardee_names_survive_the_join); [discriminate|].
  repeat (apply Forall_cons; split;
          [split; [vm_compute; intuition discriminate | run]|]).
  constructor.
Defined.

Lemma offered_options_match_a_row_witness :
  In (u "Co B") (titulaires sample_table)
  /\ filtered_df sample_table (only_titulaires [u "Co B"]) <> [].
Proof.
  assert (H : In (u "Co B") (titulaires sample_table)) by (vm_compute; tauto).
  split; [exact H|].
  exact (proj1 (offered_options_match_a_row sample_table) (u "Co B") H).
Defined.

Lemma selecting_every_option_witness :
  all_categories sample_table <> []
  /\ filtered_df sample_table (only_categories (all_categories sample_table))
     = List.filter (fun row => match Categories row with
                               | [] => false
                               | _ :: _ => true
                               end) sample_table.
Proof.
  assert (H : all_categories sample_table <> []) by (vm_compute; discriminate).
  split; [exact H|]. exact (proj2 (selecting_every_option sample_table) H).
Defined.

Lemma detail_anchor_is_last_with_same_title_witness :
  In (0%nat, row_ending_in 10) (iterrows twin_frame (only_titulaires []))
  /\ exists last,
       anchor_of (detail_anchors (iterrows twin_frame (only_titulaires [])))
         (Task (row_ending_in 10)) = Ok (anchor_id last) /\
       last_with_title (iterrows twin_frame (only_titulaires []))
         (Task (row_ending_in 10)) last.
Proof.
  assert (H : In (0%nat, row_ending_in 10) (iterrows twin_frame (only_titulaires [])))
    by (vm_compute; tauto).
  split; [exact H|].
  exact (proj1 (proj2 (proj2 (detail_anchor_is_last_with_same_title twin_frame
                                (only_titulaires [])))) 0%nat (row_ending_in 10) H).
Defined.

Lemma sorted_strings_sorts : sorts_strings sorted_strings.
Proof. intros l. unfold sorted_strings. now rewrite str_items_strings. Qed.

Lemma sample_buyers_are_strings : buyers_are_strings afternoon sample_data.
Proof.
  intros item row Hin Hn. unfold sample_data in Hin.
  repeat (destruct Hin as [<- | Hin];
          [vm_compute in Hn; try discriminate; injection Hn as <-; eexists; reflexivity|]).
  contradiction.
Qed.


(* ===================================================================== *)
(** ** The filters as pandas runs them *)
(* ===================================================================== *)

Lemma tracks_new_frame (df : list Row) : tracks df (new_frame df).
Proof. split; [reflexivity|]. now destruct df. Qed.

Lemma keep_where_tracks (col : pystr) (mask : Row -> bool) l fr fr' :
  tracks l fr -> keep_where col mask fr = Ok fr' -> tracks (List.filter mask l) fr'.
Proof.
  intros [Hr Hc]. unfold keep_where, column.
  destruct (has_columns fr); [|discriminate]. cbn [bind]. intros [= <-].
  split; [cbn; now rewrite Hr | discriminate].
Qed.

Lemma keep_where_applied_tracks (col : pystr) (mask : Row -> bool) l fr fr' :
  tracks l fr -> keep_where_applied col mask fr = Ok fr' ->
  tracks (List.filter mask l) fr'.
Proof.
  intros [Hr Hc]. unfold keep_where_applied, column.
  destruct (has_columns fr); [|discriminate]. cbn [bind]. rewrite Hr.
  destruct l as [|row l]; intros [= <-]; split; try reflexivity; discriminate.
Qed.

Lemma when_selected_tracks {A} (selection : list A) step (mask : Row -> bool) l fr fr' :
  (forall fr fr', tracks l fr -> step fr = Ok fr' -> tracks (List.filter mask l) fr') ->
  tracks l fr -> when_selected selection step fr = Ok fr' ->
  tracks (restrict selection mask l) fr'.
Proof.
  intros Hstep Ht. destruct selection; simpl; [now intros [= <-] | now apply Hstep].
Qed.

Lemma expiration_tracks (option : pystr) l fr fr' :
  tracks l fr ->
  match expiration_bound option with
  | Some bound => keep_where (u "Days_Left") (fun row => Days_Left row <=? bound) fr
  | None => Ok fr
  end = Ok fr' ->
  tracks (expiration_step option l) fr'.
Proof.
  intros Ht. unfold expiration_step. destruct (expiration_bound option).
  - now apply keep_where_tracks.
  - now intros [= <-].
Qed.

Lemma apply_filters_tracks (df : list Row) (sel : Selection) (fr : frame) :
  apply_filters df sel = Ok fr -> tracks (filtered_df df sel) fr.
Proof.
  unfold apply_filters. intros H.
  bind_inv H. bind_inv H. bind_inv H. bind_inv H. bind_inv H. bind_inv H.
  injection H as <-. unfold filtered_df.
  eapply when_selected_tracks; [apply keep_where_applied_tracks | | eassumption].
  eapply when_selected_tracks; [apply keep_where_tracks | | eassumption].
  eapply expiration_tracks; [|eassumption].
  eapply when_selected_tracks; [apply keep_where_applied_tracks | | eassumption].
  eapply when_selected_tracks; [apply keep_where_applied_tracks | | eassumption].
  eapply when_selected_tracks; [apply keep_where_tracks | | eassumption].
  apply tracks_new_frame.
Qed.

Lemma bind_Raise {A B} (r : result A) (k : A -> result B) (e : exn) :
  bind r k = Raise e -> r = Raise e \/ exists a, r = Ok a /\ k a = Raise e.
Proof. destruct r as [a|e']; simpl; [right; now exists a | intros [= ->]; now left]. Qed.

Lemma column_raise (col : pystr) (fr : frame) {A} (k : list Row -> result A) (e : exn) :
  (forall rows e, k rows <> Raise e) ->
  bind (column col fr) k = Raise e -> exn_cls e = KeyError.
Proof.
  intros Hk. unfold column. destruct (has_columns fr); cbn [bind].
  - intros H. now destruct (Hk _ _ H).
  - now intros [= <-].
Qed.

Lemma keep_where_raise (col : pystr) (mask : Row -> bool) fr e :
  keep_where col mask fr = Raise e -> exn_cls e = KeyError.
Proof. apply column_raise. discriminate. Qed.

Lemma keep_where_applied_raise (col : pystr) (mask : Row -> bool) fr e :
  keep_where_applied col mask fr = Raise e -> exn_cls e = KeyError.
Proof. apply column_raise. intros [|row rows] e'; discriminate. Qed.

Lemma when_selected_raise {A} (selection : list A) step fr e :
  (forall fr e, step fr = Raise e -> exn_cls e = KeyError) ->
  when_selected selection step fr = Raise e -> exn_cls e = KeyError.
Proof. intros Hstep. destruct selection; simpl; [discriminate | apply Hstep]. Qed.

Lemma apply_filters_raise (df : list Row) (sel : Selection) (e : exn) :
  apply_filters df sel = Raise e -> exn_cls e = KeyError.
Proof.
  unfold apply_filters. intros H.
  repeat (apply bind_Raise in H as [H | [? [_ H]]];
          [first [ now apply when_selected_raise in H;
                     [|apply keep_where_raise || apply keep_where_applied_raise]
                 | destruct (expiration_bound (expiration_filter sel));
                     [now apply keep_where_raise in H | discriminate] ]|]).
  discriminate.
Qed.

Lemma restrict_nonempty {A} (selection : list A) (mask : Row -> bool) l :
  restrict selection mask l <> [] -> l <> [].
Proof. intros H ->. apply H. now destruct selection. Qed.

Lemma expiration_step_nonempty (option : pystr) l :
  expiration_step option l <> [] -> l <> [].
Proof. intros H ->. apply H. unfold expiration_step. now destruct (expiration_bound option). Qed.

Lemma when_selected_whole {A} (selection : list A) (col : pystr) (mask : Row -> bool) l :
  when_selected selection (keep_where col mask) {| frame_rows := l; has_columns := true |}
  = Ok {| frame_rows := restrict selection mask l; has_columns := true |}.
Proof. now destruct selection. Qed.

Lemma when_selected_applied_whole {A} (selection : list A) (col : pystr)
    (mask : Row -> bool) l :
  l <> [] \/ selection = [] ->
  when_selected selection (keep_where_applied col mask)
    {| frame_rows := l; has_columns := true |}
  = Ok {| frame_rows := restrict selection mask l; has_columns := true |}.
Proof.
  intros [Hl | ->]; [|reflexivity].
  destruct selection; [reflexivity|]. destruct l; [congruence | reflexivity].
Qed.

Lemma expiration_whole (option : pystr) l :
  match expiration_bound option with
  | Some bound =>
    keep_where (u "Days_Left") (fun row => Days_Left row <=? bound)
      {| frame_rows := l; has_columns := true |}
  | None => Ok {| frame_rows := l; has_columns := true |}
  end = Ok {| frame_rows := expiration_step option l; has_columns := true |}.
Proof. unfold expiration_step. now destruct (expiration_bound option). Qed.

Lemma apply_filters_whole (df : list Row) (sel : Selection) :
  df <> [] ->
  filtered_df df sel <> [] \/
  (selected_titulaires sel = [] /\ selected_departments sel = [] /\
   selected_categories sel = []) ->
  apply_filters df sel = Ok {| frame_rows := filtered_df df sel; has_columns := true |}.
Proof.
  intros Hdf Hcase. unfold apply_filters, filtered_df in *. cbv zeta in *.
  assert (Hnew : new_frame df = {| frame_rows := df; has_columns := true |})
    by (destruct df; [congruence | reflexivity]).
  rewrite Hnew, when_selected_whole. cbn [bind].
  set (l1 := restrict (selected_acheteurs sel) _ df) in *.
  rewrite when_selected_applied_whole; cycle 1.
  { destruct Hcase as [Hne | [-> _]]; [left | now right].
    do 5 first [ apply restrict_nonempty in Hne | apply expiration_step_nonempty in Hne ].
    exact Hne. }
  cbn [bind]. set (l2 := restrict (selected_titulaires sel) _ l1) in *.
  rewrite when_selected_applied_whole; cycle 1.
  { destruct Hcase as [Hne | [_ [-> _]]]; [left | now right].
    do 4 first [ apply restrict_nonempty in Hne | apply expiration_step_nonempty in Hne ].
    exact Hne. }
  cbn [bind]. set (l3 := restrict (selected_departments sel) _ l2) in *.
  rewrite expiration_whole. cbn [bind].
  set (l4 := expiration_step (expiration_filter sel) l3) in *.
  rewrite when_selected_whole. cbn [bind].
  set (l5 := restrict (status_filter sel) _ l4) in *.
  rewrite when_selected_applied_whole; [reflexivity|].
  destruct Hcase as [Hne | [_ [_ ->]]]; [left | now right].
  now apply restrict_nonempty in Hne.
Qed.

(** X1.  The filters of [main], run on the data frame, either give a frame
    or raise [KeyError].  When they give a frame, its rows are the rows of
    the table that pass every filter, in the order of the table.  They give
    it whenever some row passes every filter, and whenever no awardee, no
    department and no category is selected on a table that has rows; hence
    they raise only when no row passes. *)
Theorem filter_chain_raises_only_when_no_row_passes (df : list Row) (sel : Selection) :
  (forall fr, apply_filters df sel = Ok fr ->
              frame_rows fr = filtered_df df sel /\ sublist (frame_rows fr) df)
  /\ (filtered_df df sel <> [] ->
      apply_filters df sel
      = Ok {| frame_rows := filtered_df df sel; has_columns := true |})
  /\ (forall e, apply_filters df sel = Raise e ->
                exn_cls e = KeyError /\ filtered_df df sel = [])
  /\ (df <> [] -> selected_titulaires sel = [] -> selected_departments sel = [] ->
      selected_categories sel = [] ->
      apply_filters df sel
      = Ok {| frame_rows := filtered_df df sel; has_columns := true |}).
Proof.
  assert (Hwhole : filtered_df df sel <> [] ->
      apply_filters df sel
      = Ok {| frame_rows := filtered_df df sel; has_columns := true |}).
  { intros Hne. apply apply_filters_whole; [|now left].
    intros E. apply Hne. rewrite E. apply filtered_df_passes. }
  split; [|split; [exact Hwhole | split]].
  - intros fr H. apply apply_filters_tracks in H as [-> _]. split; [reflexivity|].
    rewrite filtered_df_passes. apply filter_sublist.
  - intros e H. split; [now apply apply_filters_raise in H|].
    destruct (filtered_df df sel) as [|row l] eqn:E; [reflexivity|].
    rewrite Hwhole in H; discriminate.
  - intros Hdf H1 H2 H3. apply apply_filters_whole; [assumption | now right].
Qed.

Lemma py_eqb_string (v : pyval) (b : pystr) : py_eqb v (PStr b) = true <-> v = PStr b.
Proof.
  destruct v; simpl; try (split; [discriminate | discriminate]).
  rewrite str_eqb_eq. split; [now intros -> | now intros [= ->]].
Qed.

Lemma isin_strings (v : pyval) (names : list pystr) :
  isin v (List.map PStr names) = true <-> exists b, In b names /\ v = PStr b.
Proof.
  unfold isin. rewrite existsb_exists. split.
  - intros [x [Hx Heq]]. apply in_map_iff in Hx as [b [<- Hb]].
    apply py_eqb_string in Heq. now exists b.
  - intros [b [Hb ->]]. exists (PStr b). split; [now apply in_map|].
    now apply py_eqb_string.
Qed.

Lemma departments_mask_strings (names : list pystr) (row : Row) :
  departments_mask (List.map PStr names) row = true <->
  exists d, In d names /\ In (PStr d) (Departments row).
Proof.
  unfold departments_mask. rewrite existsb_exists. split.
  - intros [dept [Hin His]]. apply isin_strings in His as [d [Hd ->]]. now exists d.
  - intros [d [Hd Hin]]. exists (PStr d). split; [assumption|].
    apply isin_strings. now exists d.
Qed.

Lemma map_PStr_nil (names : list pystr) : List.map PStr names = [] <-> names = [].
Proof. destruct names; split; intros H; try reflexivity; discriminate. Qed.

Lemma passes_strings (buyers awardees departments : list pystr) (horizon : pystr)
    (statuses categories : list pystr) (row : Row) :
  passes (string_selection buyers awardees departments horizon statuses categories) row
  = true <->
  (buyers = [] \/ exists b, In b buyers /\ Resource row = PStr b)
  /\ (awardees = [] \/
      exists t, In t (split 44%N (Titulaire row)) /\ In (strip t) awardees)
  /\ (departments = [] \/ exists d, In d departments /\ In (PStr d) (Departments row))
  /\ (forall bound, expiration_bound horizon = Some bound -> Days_Left row <= bound)
  /\ (statuses = [] \/ In (Status row) statuses)
  /\ (categories = [] \/ exists c, In c (Categories row) /\ In c categories).
Proof.
  unfold passes, string_selection;
    cbn [selected_acheteurs selected_titulaires selected_departments expiration_filter
         status_filter selected_categories].
  rewrite !andb_true_iff, !dimension_spec, expiration_mask_spec, !map_PStr_nil.
  rewrite isin_strings, departments_mask_strings, str_in_In.
  unfold titulaire_mask, categories_mask. rewrite !existsb_exists.
  assert (Ht : (exists x, In x (split 44%N (Titulaire row)) /\
                 str_in (strip x) awardees = true) <->
               (exists t, In t (split 44%N (Titulaire row)) /\ In (strip t) awardees)).
  { split; intros [t [H1 H2]]; exists t; (split; [assumption|]); now apply str_in_In. }
  assert (Hc : (exists x, In x (Categories row) /\ str_in x categories = true) <->
               (exists c, In c (Categories row) /\ In c categories)).
  { split; intros [c [H1 H2]]; exists c; (split; [assumption|]); now apply str_in_In. }
  rewrite Ht, Hc. tauto.
Qed.

Lemma passes_active_within_3_months (row : Row) :
  passes active_within_3_months row = true <->
  Status row = u "En cours" /\ Days_Left row <= 90.
Proof.
  unfold passes, active_within_3_months, dimension, expiration_mask; simpl.
  change (expiration_bound (u "Se termine dans 3 mois")) with (Some 90).
  unfold str_in; simpl.
  rewrite orb_false_r, andb_true_r, andb_true_iff, Z.leb_le, str_eqb_eq. tauto.
Qed.

(** C5.  The filters of [main] do combine as the specification says
    whenever they give a frame: its rows are, in the order of the table,
    the rows that satisfy every dimension, a dimension being satisfied by
    an empty selection or by one selected value that matches.  With the
    status "En cours" and the three-month option alone they always give the
    rows in progress with at most 90 days left.  But they do not always give
    a frame: on the table of [sample_data], a buyer, an awardee and a
    department that no row has together make the frame empty before the
    department filter, which strips it of its columns, and the status
    filter raises [KeyError] where the specification expects no row. *)
Theorem C5_filters_conjoin_unless_a_frame_is_emptied :
  (forall df buyers awardees departments horizon statuses categories fr,
     apply_filters df
       (string_selection buyers awardees departments horizon statuses categories)
     = Ok fr ->
     sublist (frame_rows fr) df /\
     forall row,
       In row (frame_rows fr) <->
       In row df
       /\ (buyers = [] \/ exists b, In b buyers /\ Resource row = PStr b)
       /\ (awardees = [] \/
           exists t, In t (split 44%N (Titulaire row)) /\ In (strip t) awardees)
       /\ (departments = [] \/
           exists d, In d departments /\ In (PStr d) (Departments row))
       /\ (forall bound, expiration_bound horizon = Some bound ->
                         Days_Left row <= bound)
       /\ (statuses = [] \/ In (Status row) statuses)
       /\ (categories = [] \/ exists c, In c (Categories row) /\ In c categories))
  /\ (forall df, df <> [] ->
       exists fr,
         apply_filters df active_within_3_months = Ok fr /\
         forall row, In row (frame_rows fr) <->
                     In row df /\ Status row = u "En cours" /\ Days_Left row <= 90)
  /\ apply_filters sample_table crossed_selection = Raise (Exn KeyError (u "'Status'"))
  /\ (forall row, In row sample_table -> passes crossed_selection row = false).
Proof.
  split; [|split; [|split]].
  - intros df buyers awardees departments horizon statuses categories fr H.
    apply apply_filters_tracks in H as [-> _]. rewrite filtered_df_passes.
    split; [apply filter_sublist|].
    intros row. rewrite filter_In, passes_strings. reflexivity.
  - intros df Hdf. eexists. split.
    + apply apply_filters_whole; [assumption | now right].
    + intros row. cbn [frame_rows].
      rewrite filtered_df_passes, filter_In, passes_active_within_3_months. reflexivity.
  - vm_compute. reflexivity.
  - apply List.Forall_forall. vm_compute. repeat constructor.
Qed.

(** C5 on [sample_frame]: only the row with 10 days left stays. *)
Lemma C5_witness :
  exists fr,
    apply_filters sample_frame active_within_3_months = Ok fr /\
    forall row, In row (frame_rows fr) <->
                In row sample_frame /\ Status row = u "En cours" /\ Days_Left row <= 90.
Proof.
  apply (proj1 (proj2 C5_filters_conjoin_unless_a_frame_is_emptied) sample_frame).
  discriminate.
Defined.

Lemma crash_builds_no_table `{R : Runtime} (today : Z) (data : list pyval) (item : pyval) :
  In item data -> crashes today item = true ->
  forall tl ws, prepare_timeline_data today data <> Returned tl ws.
Proof.
  intros Hin Hc tl ws H. apply prepare_timeline_data_Returned in H as [Hall _].
  rewrite List.Forall_forall in Hall. specialize (Hall item Hin). congruence.
Qed.

(** C9.  The table is not, for every input, the list of the records that
    normalize: a record that raises an exception the loop does not catch
    leaves the load without any table, whatever the other records are.  On
    a tender one of whose lots is a number, followed by the worked example,
    the load ends with [AttributeError] and no table, though the second
    record normalizes. *)
Theorem C9_uncaught_error_builds_no_table :
  (forall (R : Runtime) (today : Z) (data : list pyval) (item : pyval),
     In item data -> crashes (R := R) today item = true ->
     forall tl ws, prepare_timeline_data (R := R) today data <> Returned tl ws)
  /\ (exists e, exn_cls e = AttributeError /\
                prepare_timeline_data afternoon [numbered_lot; poulet_bio]
                = Uncaught e [] [])
  /\ (exists row, omap (normalized afternoon) [numbered_lot; poulet_bio] = [row]).
Proof.
  split; [|split].
  - intros R today data item. apply crash_builds_no_table.
  - eexists. split; [|vm_compute; reflexivity]. reflexivity.
  - eexists. vm_compute. reflexivity.
Qed.

(** C9 on the two records above. *)
Lemma C9_witness :
  crashes afternoon numbered_lot = true
  /\ forall tl ws,
       prepare_timeline_data afternoon [numbered_lot; poulet_bio] <> Returned tl ws.
Proof.
  assert (H : crashes afternoon numbered_lot = true) by run.
  split; [exact H|].
  exact (proj1 C9_uncaught_error_builds_no_table Example.runtime afternoon
           [numbered_lot; poulet_bio] numbered_lot (or_introl eq_refl) H).
Defined.

(* ===================================================================== *)
(** ** Beyond the specification: the page *)
(* ===================================================================== *)

Lemma details_of_frame `{R : Runtime} (today : Z) (data : list pyval) df ws
    (sel : Selection) :
  prepare_timeline_data today data = Returned df ws ->
  exists details,
    traverse (show_detail (detail_anchors (iterrows df sel))) (filtered_df df sel)
    = Ok details /\
    List.map detail_row details = filtered_df df sel.
Proof.
  intros H. apply traverse_Ok. intros row Hrow.
  assert (Hdf : In row df).
  { rewrite filtered_df_passes in Hrow. now apply filter_In in Hrow. }
  destruct (table_rows today data df ws H row Hdf) as [item [_ Hn]].
  destruct (lots_of_row today item row Hn) as [names [_ [Hlots _]]].
  assert (Hix : exists idx, In (idx, row) (iterrows df sel)).
  { rewrite filtered_df_passes, <- (iterrows_from (passes sel) df 0) in Hrow.
    apply in_map_iff in Hrow as [[idx r] [E Hin]]. simpl in E. subst r.
    now exists idx. }
  destruct Hix as [idx Hix].
  destruct (detail_anchors_lookup (iterrows df sel) (Task row))
    as [[_ Hall] | [last [Hsome _]]].
  - rewrite List.Forall_forall in Hall. now destruct (Hall _ Hix).
  - unfold show_detail, anchor_of. rewrite Hsome, Hlots. cbn [bind]. eauto.
Qed.

(** X20.  After a load that returns, when the buyers of the records are
    strings, [main] ends in one of these ways.  A table without rows gives
    the error "no valid data".  Otherwise the filters decide: if they raise,
    which they do with [KeyError] only and when no row passes, [main] stops
    on that exception; if they give a frame without rows, the page warns
    that nothing matches; if some row passes, the chart is drawn, and the
    page shows the four metrics of the rows that pass and one expander for
    each of them, in the order of the table, unless the drawing itself
    fails. *)
Theorem main_page_follows_the_filters `{R : Runtime}
    (py_sorted_set : list pyval -> result (list pyval))
    (plot_timeline : list Row -> result unit)
    (today : Z) (data : list pyval) (sel : Selection) df ws :
  sorts_strings py_sorted_set -> buyers_are_strings today data ->
  prepare_timeline_data today data = Returned df ws ->
  let session := main py_sorted_set plot_timeline today data sel in
  (df = [] -> session = Shown ws NoValidData)
  /\ (df <> [] -> forall e,
       apply_filters df sel = Raise e ->
       session = Aborted e /\ exn_cls e = KeyError /\ filtered_df df sel = [])
  /\ (df <> [] -> forall fr,
       apply_filters df sel = Ok fr -> filtered_df df sel = [] ->
       exists options,
         session = Shown ws (NoMatch options) /\
         opt_titulaires options = titulaires df /\
         opt_categories options = all_categories df)
  /\ (filtered_df df sel <> [] ->
      (forall e, plot_timeline (filtered_df df sel) = Raise e -> session = Aborted e) /\
      (plot_timeline (filtered_df df sel) = Ok tt ->
       exists options details,
         session
         = Shown ws (Dashboard options (total_aos (filtered_df df sel))
                       (active_aos (filtered_df df sel))
                       (expiring_soon (filtered_df df sel))
                       (finished_aos (filtered_df df sel)) details) /\
         opt_titulaires options = titulaires df /\
         List.map detail_row details = filtered_df df sel)).
Proof.
  intros Hsort Hbuy H session. unfold session, main. rewrite H. unfold main_page.
  split; [intros ->; reflexivity|].
  destruct (widgets_of_table py_sorted_set today data df ws Hsort Hbuy H)
    as [options [Hw [Ht Hc]]].
  assert (Hdf : filtered_df df sel <> [] -> df <> []).
  { intros Hne E. apply Hne. rewrite E. apply filtered_df_passes. }
  split; [|split].
  - intros Hne e He. destruct df as [|row0 df0]; [congruence|].
    rewrite Hw. cbn [bind]. rewrite He. cbn [bind]. split; [reflexivity|].
    split; [now apply apply_filters_raise in He|].
    destruct (filtered_df (row0 :: df0) sel) as [|r l] eqn:E; [reflexivity|].
    rewrite apply_filters_whole in He; [discriminate | discriminate | left].
    rewrite E. discriminate.
  - intros Hne fr Hfr Hempty. destruct df as [|row0 df0]; [congruence|].
    rewrite Hw. cbn [bind]. rewrite Hfr. cbn [bind].
    apply apply_filters_tracks in Hfr as [Hrows _]. rewrite Hrows, Hempty.
    now exists options.
  - intros Hne. specialize (Hdf Hne). destruct df as [|row0 df0]; [congruence|].
    rewrite Hw. cbn [bind].
    rewrite (apply_filters_whole _ sel Hdf (or_introl Hne)). cbn [bind frame_rows].
    destruct (details_of_frame today data (row0 :: df0) ws sel H) as [details [Hd Hmap]].
    destruct (filtered_df (row0 :: df0) sel) as [|r l] eqn:E; [congruence|].
    split.
    + intros e He. rewrite He. reflexivity.
    + intros Hplot. rewrite Hplot. cbn [bind]. rewrite Hd. cbn [bind].
      now exists options, details.
Qed.

Lemma main_page_follows_the_filters_witness :
  (exists options details,
     main sorted_strings always_drawn afternoon sample_data (only_titulaires [])
     = Shown sample_warnings
         (Dashboard options
            (total_aos (filtered_df sample_table (only_titulaires [])))
            (active_aos (filtered_df sample_table (only_titulaires [])))
            (expiring_soon (filtered_df sample_table (only_titulaires [])))
            (finished_aos (filtered_df sample_table (only_titulaires []))) details) /\
     opt_titulaires options = titulaires sample_table /\
     List.map detail_row details = filtered_df sample_table (only_titulaires []))
  /\ main sorted_strings always_drawn afternoon sample_data crossed_selection
     = Aborted (Exn KeyError (u "'Status'")).
Proof.
  pose proof (main_page_follows_the_filters sorted_strings always_drawn afternoon
                sample_data (only_titulaires []) sample_table sample_warnings
                sorted_strings_sorts sample_buyers_are_strings sample_load) as Hall.
  pose proof (main_page_follows_the_filters sorted_strings always_drawn afternoon
                sample_data crossed_selection sample_table sample_warnings
                sorted_strings_sorts sample_buyers_are_strings sample_load) as Hcross.
  cbv zeta in Hall, Hcross. split.
  - apply (proj2 (proj2 (proj2 Hall))); [vm_compute; discriminate | reflexivity].
  - apply (proj1 (proj2 Hcross)); [vm_compute; discriminate | run].
Defined.

Lemma filter_chain_raises_only_when_no_row_passes_witness :
  apply_filters sample_table default_selection
  = Ok {| frame_rows := filtered_df sample_table default_selection;
          has_columns := true |}.
Proof.
  apply (proj1 (proj2 (filter_chain_raises_only_when_no_row_passes sample_table
                         default_selection))).
  vm_compute. discriminate.
Defined.
